(** * postgres_mcp.json_utils: the type-normalizing codec

    A shallow embedding of [src/postgres_mcp/json_utils.py] ([_default],
    [to_jsonable], [to_json]) together with the parts of its environment the
    three functions run against: Python's [decimal.Decimal],
    [datetime.timedelta] and friends, and the [orjson] encoder whose
    [default=] hook [_default] is.

    Conventions.
    - Python text is [String.string], one [ascii] per character.
    - Python [int] is [Z]; [float] is a binary64 value ([spec_float] with
      [prec = 53], [emax = 1024]).
    - A raised exception is the [Err] branch of [result]. *)

From Stdlib Require Import ZArith NArith List String Ascii Bool Lia.
From Stdlib Require Import Permutation.
From Stdlib Require Import Floats.SpecFloat DecimalString.
Import ListNotations.

Set Warnings "-register-all".

Open Scope string_scope.
Open Scope Z_scope.

(** ** Results and exceptions *)

Inductive result (E A : Type) : Type :=
| Ok (a : A)
| Err (e : E).
Arguments Ok {E A} a.
Arguments Err {E A} e.

Definition bind {E A B} (m : result E A) (k : A -> result E B) : result E B :=
  match m with
  | Ok a => k a
  | Err e => Err e
  end.

Notation "x <- m ;; k" := (bind m (fun x => k))
  (at level 61, m at next level, right associativity).

(** [map_m f l]: run [f] on the items of [l] from left to right and stop at
    the first exception, as a Python loop over [l] does. *)
Fixpoint map_m {E A B} (f : A -> result E B) (l : list A) : result E (list B) :=
  match l with
  | [] => Ok []
  | a :: l' => b <- f a ;; bs <- map_m f l' ;; Ok (b :: bs)
  end.

Definition is_ok {E A} (m : result E A) : bool :=
  match m with Ok _ => true | Err _ => false end.

(** Exceptions a Python callee can raise while the codec runs. *)
Inductive pyexc : Type :=
| TypeError (msg : string)
| ValueError (msg : string)
| OverflowError (msg : string)
| InvalidOperation.

(** ** Text formatting helpers *)

Module Fmt.

(** ["%d" % n] for a natural number. *)
Definition dec (n : N) : string := NilZero.string_of_uint (N.to_uint n).

(** ["%d" % z]. *)
Definition dec_Z (z : Z) : string :=
  match z with
  | Zneg p => "-" ++ dec (Npos p)
  | _ => dec (Z.to_N z)
  end.

Fixpoint zeros (n : nat) : string :=
  match n with
  | O => ""
  | S n' => String "0" (zeros n')
  end.

(** ["%0<w>d" % n]: left-padded with zeros to at least [w] characters. *)
Definition dec_pad (w : nat) (n : N) : string :=
  let s := dec n in zeros (w - String.length s) ++ s.

Definition hex_digit (n : N) : ascii :=
  match n with
  | 0%N => "0" | 1%N => "1" | 2%N => "2" | 3%N => "3"
  | 4%N => "4" | 5%N => "5" | 6%N => "6" | 7%N => "7"
  | 8%N => "8" | 9%N => "9" | 10%N => "a" | 11%N => "b"
  | 12%N => "c" | 13%N => "d" | 14%N => "e" | _ => "f"
  end%char.

(** Two lowercase hexadecimal digits of one byte. *)
Definition hex_byte (b : Byte.byte) : string :=
  let n := Byte.to_N b in
  String (hex_digit (n / 16)) (String (hex_digit (n mod 16)) "").

(** [bytes.hex()]. *)
Fixpoint hex (bs : list Byte.byte) : string :=
  match bs with
  | [] => ""
  | b :: bs' => hex_byte b ++ hex bs'
  end.

(** The [w] low hexadecimal digits of [n], most significant first. *)
Fixpoint hex_fixed (w : nat) (n : N) : string :=
  match w with
  | O => ""
  | S w' => hex_fixed w' (n / 16) ++ String (hex_digit (n mod 16)) ""
  end.

Definition is_lower_hex (c : ascii) : bool :=
  let n := N_of_ascii c in
  ((48 <=? n) && (n <=? 57) || (97 <=? n) && (n <=? 102))%N.

Fixpoint all_chars (p : ascii -> bool) (s : string) : bool :=
  match s with
  | EmptyString => true
  | String c s' => p c && all_chars p s'
  end.

End Fmt.

(** ** decimal.Decimal *)

Module PyDecimal.

(** A [Decimal] is a sign, a coefficient and an exponent, or one of the
    special values. *)
Inductive t : Type :=
| Finite (sign : bool) (coeff : N) (exp : Z)
| Infinity (sign : bool)
| NaN (sign : bool) (signaling : bool).

Definition signed (sign : bool) (n : Z) : Z := if sign then - n else n.

(** Round-half-even quotient of [c] by [p], the rounding of the default
    context. *)
Definition div_half_even (c p : Z) : Z :=
  let q := c / p in
  let r := c mod p in
  match 2 * r ?= p with
  | Lt => q
  | Gt => q + 1
  | Eq => if Z.even q then q else q + 1
  end.

(** [Decimal.to_integral_value()] under the default context. *)
Definition to_integral_value (d : t) : result pyexc t :=
  match d with
  | NaN _ true => Err InvalidOperation
  | NaN s false => Ok (NaN s false)
  | Infinity s => Ok (Infinity s)
  | Finite s c e =>
      if 0 <=? e then Ok (Finite s c e)
      else Ok (Finite s (Z.to_N (div_half_even (Z.of_N c) (10 ^ (- e)))) 0)
  end.

(** The numerator of a finite decimal over the common denominator
    [10 ^ (- m)], for [m] at most its exponent. *)
Definition scaled (m : Z) (s : bool) (c : N) (e : Z) : Z :=
  signed s (Z.of_N c * 10 ^ (e - m)).

(** [a == b] on two decimals. *)
Definition eq (a b : t) : result pyexc bool :=
  match a, b with
  | NaN _ true, _ | _, NaN _ true => Err InvalidOperation
  | NaN _ false, _ | _, NaN _ false => Ok false
  | Infinity s1, Infinity s2 => Ok (Bool.eqb s1 s2)
  | Infinity _, Finite _ _ _ | Finite _ _ _, Infinity _ => Ok false
  | Finite s1 c1 e1, Finite s2 c2 e2 =>
      let m := Z.min e1 e2 in
      Ok (scaled m s1 c1 e1 =? scaled m s2 c2 e2)
  end.

(** [int(d)]: truncation towards zero. *)
Definition to_int (d : t) : result pyexc Z :=
  match d with
  | NaN _ _ => Err (ValueError "cannot convert NaN to integer")
  | Infinity _ => Err (OverflowError "cannot convert Infinity to integer")
  | Finite s c e =>
      if 0 <=? e then Ok (signed s (Z.of_N c * 10 ^ e))
      else Ok (signed s (Z.of_N c / 10 ^ (- e)))
  end.

(** [float(d)]: the binary64 value nearest to [d] (ties to even), an
    infinity when [d] is beyond the binary64 range. *)
Definition to_float (d : t) : result pyexc spec_float :=
  match d with
  | NaN _ true => Err (ValueError "cannot convert signaling NaN to float")
  | NaN _ false => Ok S754_nan
  | Infinity s => Ok (S754_infinity s)
  | Finite s c e =>
      match c with
      | N0 => Ok (S754_zero s)
      | Npos p =>
          if 0 <=? e
          then Ok (binary_normalize 53 1024 (signed s (Zpos p * 10 ^ e)) 0 s)
          else Ok (SFdiv 53 1024 (S754_finite s p 0)
                     (S754_finite false (Z.to_pos (10 ^ (- e))) 0))
      end
  end.

(** The fractional part of a finite decimal is zero. *)
Definition is_integral (d : t) : bool :=
  match d with
  | Finite _ c e => (0 <=? e) || (Z.of_N c mod 10 ^ (- e) =? 0)
  | _ => false
  end.

(** The mathematical integer a finite integral decimal denotes. *)
Definition int_value (d : t) : Z :=
  match d with
  | Finite s c e =>
      if 0 <=? e then signed s (Z.of_N c * 10 ^ e)
      else signed s (Z.of_N c / 10 ^ (- e))
  | _ => 0
  end.

Definition is_finite (d : t) : bool :=
  match d with Finite _ _ _ => true | _ => false end.

End PyDecimal.

(** ** datetime and uuid values *)

Module PyDatetime.

(** [datetime.timedelta] in its normal form: any number of days,
    [0 <= seconds < 86400], [0 <= microseconds < 1000000]. *)
Record timedelta : Type := Timedelta {
  td_days : Z;
  td_seconds : N;
  td_microseconds : N
}.

(** [timedelta(days=, hours=, minutes=, seconds=, microseconds=)]: the
    constructor brings the sum of its arguments to normal form. *)
Definition make_timedelta (days hours minutes seconds microseconds : Z)
  : timedelta :=
  let total := (((days * 24 + hours) * 60 + minutes) * 60 + seconds) * 1000000
               + microseconds in
  let s := total / 1000000 in
  Timedelta (s / 86400) (Z.to_N (s mod 86400)) (Z.to_N (total mod 1000000)).

(** [timedelta.__str__]. *)
Definition timedelta_str (td : timedelta) : string :=
  let ss := (td_seconds td mod 60)%N in
  let mm := (td_seconds td / 60)%N in
  let hh := (mm / 60)%N in
  let mm := (mm mod 60)%N in
  let s := Fmt.dec hh ++ ":" ++ Fmt.dec_pad 2 mm ++ ":" ++ Fmt.dec_pad 2 ss in
  let s :=
    if td_days td =? 0 then s
    else Fmt.dec_Z (td_days td) ++ " day"
         ++ (if Z.abs (td_days td) =? 1 then "" else "s") ++ ", " ++ s in
  if (td_microseconds td =? 0)%N then s
  else s ++ "." ++ Fmt.dec_pad 6 (td_microseconds td).

Record date : Type := Date {
  d_year : N;
  d_month : N;
  d_day : N
}.

(** What [tzinfo.utcoffset()] returns: a [timedelta] of whole seconds with
    [days] in [{-1, 0}]. *)
Record utcoffset : Type := UtcOffset {
  off_day : Z;
  off_second : N
}.

Record time : Type := Time {
  t_hour : N;
  t_minute : N;
  t_second : N;
  t_microsecond : N;
  t_tzinfo : option utcoffset
}.

Record datetime : Type := Datetime {
  dt_date : date;
  dt_hour : N;
  dt_minute : N;
  dt_second : N;
  dt_microsecond : N;
  dt_tzinfo : option utcoffset
}.

(** The text [orjson] writes for a date: [YYYY-MM-DD]. *)
Definition date_str (d : date) : string :=
  Fmt.dec_pad 4 (d_year d) ++ "-" ++ Fmt.dec_pad 2 (d_month d)
  ++ "-" ++ Fmt.dec_pad 2 (d_day d).

Definition clock_str (h m s us : N) : string :=
  Fmt.dec_pad 2 h ++ ":" ++ Fmt.dec_pad 2 m ++ ":" ++ Fmt.dec_pad 2 s
  ++ (if (us =? 0)%N then "" else "." ++ Fmt.dec_pad 6 us).

(** The UTC offset suffix: [+00:00] for a zero offset, otherwise sign,
    hours and minutes, the minutes rounded up from 30 excess seconds. *)
Definition offset_str (o : utcoffset) : string :=
  if (off_second o =? 0)%N then "+00:00"
  else
    let neg := off_day o =? -1 in
    let sec := if neg then (86400 - off_second o)%N else off_second o in
    let minute := (sec / 60)%N in
    let hour := (minute / 60)%N in
    let minute_print := (minute mod 60)%N in
    let excess := (sec - (minute_print * 60 + hour * 3600))%N in
    let minute_print :=
      if (30 <=? excess)%N then (minute_print + 1)%N else minute_print in
    (if neg then "-" else "+") ++ Fmt.dec_pad 2 hour ++ ":"
    ++ Fmt.dec_pad 2 minute_print.

(** The text [orjson] writes for a datetime (RFC 3339). *)
Definition datetime_str (dt : datetime) : string :=
  date_str (dt_date dt) ++ "T"
  ++ clock_str (dt_hour dt) (dt_minute dt) (dt_second dt) (dt_microsecond dt)
  ++ match dt_tzinfo dt with
     | None => ""
     | Some o => offset_str o
     end.

(** The text [orjson] writes for a time of day that has no [tzinfo]. *)
Definition time_str (t : time) : string :=
  clock_str (t_hour t) (t_minute t) (t_second t) (t_microsecond t).

(** [str(uuid.UUID(int=u))]: 32 lowercase hexadecimal digits grouped
    8-4-4-4-12. *)
Definition uuid_str (u : N) : string :=
  let h := Fmt.hex_fixed 32 u in
  substring 0 8 h ++ "-" ++ substring 8 4 h ++ "-" ++ substring 12 4 h
  ++ "-" ++ substring 16 4 h ++ "-" ++ substring 20 12 h.

Definition utc : utcoffset := UtcOffset 0 0.

End PyDatetime.

(** ** Python values *)

(** The values the codec is handed: what a PostgreSQL driver puts in a row,
    the containers around them, and [PObject] for an instance of any class
    the encoder has no rule for (the argument is the class name). *)
Inductive pyobj : Type :=
| PNone
| PBool (b : bool)
| PInt (n : Z)
| PFloat (f : spec_float)
| PStr (s : string)
| PDecimal (d : PyDecimal.t)
| PTimedelta (td : PyDatetime.timedelta)
| PBytes (bs : list Byte.byte)
| PMemoryview (bs : list Byte.byte)
| PDatetime (dt : PyDatetime.datetime)
| PDate (d : PyDatetime.date)
| PTime (t : PyDatetime.time)
| PUUID (u : N)
| PList (items : list pyobj)
| PTuple (items : list pyobj)
| PSet (items : list pyobj)
| PFrozenset (items : list pyobj)
| PDict (entries : list (pyobj * pyobj))
| PObject (class_name : string).

(** [type(obj).__name__]. *)
Definition type_name (obj : pyobj) : string :=
  match obj with
  | PNone => "NoneType"
  | PBool _ => "bool"
  | PInt _ => "int"
  | PFloat _ => "float"
  | PStr _ => "str"
  | PDecimal _ => "Decimal"
  | PTimedelta _ => "timedelta"
  | PBytes _ => "bytes"
  | PMemoryview _ => "memoryview"
  | PDatetime _ => "datetime"
  | PDate _ => "date"
  | PTime _ => "time"
  | PUUID _ => "UUID"
  | PList _ => "list"
  | PTuple _ => "tuple"
  | PSet _ => "set"
  | PFrozenset _ => "frozenset"
  | PDict _ => "dict"
  | PObject n => n
  end.

(** Containers enumerate their items in list order: for [PSet] and
    [PFrozenset] the list is the order in which this particular object
    iterates. *)

(** ** json_utils._default *)

(** The handler for types the encoder does not serialize by itself. The
    [isinstance] tests are tried in the order of the source. *)
Definition _default (obj : pyobj) : result pyexc pyobj :=
  match obj with
  | PDecimal d =>
      i <- PyDecimal.to_integral_value d ;;
      same <- PyDecimal.eq d i ;;
      if same : bool
      then n <- PyDecimal.to_int d ;; Ok (PInt n)
      else f <- PyDecimal.to_float d ;; Ok (PFloat f)
  | PTimedelta td => Ok (PStr (PyDatetime.timedelta_str td))
  | PMemoryview bs => Ok (PStr (Fmt.hex bs))
  | PBytes bs => Ok (PStr (Fmt.hex bs))
  | PSet items | PFrozenset items => Ok (PList items)
  | _ =>
      Err (TypeError ("Object of type " ++ type_name obj
                      ++ " is not JSON serializable"))
  end.

(** ** The orjson encoder *)

(** A JSON document. *)
Inductive json : Type :=
| JNull
| JBool (b : bool)
| JInt (n : Z)
| JFloat (f : spec_float)
| JStr (s : string)
| JArr (items : list json)
| JObj (members : list (string * json)).

Module Orjson.

(** [orjson.JSONEncodeError], by message. *)
Inductive encode_error : Type :=
| UnsupportedType (tp_name : string) (cause : pyexc)
    (* "Type is not JSON serializable: <tp_name>", chained to the
       exception the default hook raised *)
| IntegerRange          (* "Integer exceeds 64-bit range" *)
| KeyMustBeStr          (* "Dict key must be str" *)
| RecursionLimit        (* "Recursion limit reached" *)
| DefaultRecursionLimit (* "default serializer exceeds recursion limit" *)
| TimeHasTzinfo.        (* "datetime.time must not have tzinfo set" *)

(** The name the encoder prints for a type: the C-level [tp_name], which is
    module-qualified for the extension types of the standard library. *)
Definition tp_name (obj : pyobj) : string :=
  match obj with
  | PDecimal _ => "decimal.Decimal"
  | PTimedelta _ => "datetime.timedelta"
  | _ => type_name obj
  end.

(** The types the encoder serializes without calling the default hook. *)
Definition is_native (obj : pyobj) : bool :=
  match obj with
  | PNone | PBool _ | PInt _ | PFloat _ | PStr _
  | PDatetime _ | PDate _ | PTime _ | PUUID _
  | PList _ | PTuple _ | PDict _ => true
  | _ => false
  end.

Definition RECURSION_LIMIT : nat := 255.
Definition DEFAULT_CALLS_LIMIT : nat := 255.

(** Integers are written when they fit a signed or an unsigned 64-bit
    word. *)
Definition int_in_range (n : Z) : bool :=
  (- 2 ^ 63 <=? n) && (n <=? 2 ^ 64 - 1).

Definition float_is_finite (f : spec_float) : bool :=
  match f with
  | S754_zero _ | S754_finite _ _ _ => true
  | S754_infinity _ | S754_nan => false
  end.

Section Serialize.

(** The [default=] callable. *)
Variable default : pyobj -> result pyexc pyobj.

(** The serializer. [depth] counts the containers around [obj],
    [calls] the default calls that led to it; [fuel] bounds the
    recursion of the definition and is never what stops a run (see
    [serialize_fuel_stable]). *)
Fixpoint serialize (fuel depth calls : nat) (obj : pyobj)
  : result encode_error json :=
  match fuel with
  | O => Err RecursionLimit
  | S fuel' =>
      match obj with
      | PNone => Ok JNull
      | PBool b => Ok (JBool b)
      | PInt n => if int_in_range n then Ok (JInt n) else Err IntegerRange
      | PFloat f => Ok (if float_is_finite f then JFloat f else JNull)
      | PStr s => Ok (JStr s)
      | PDatetime dt => Ok (JStr (PyDatetime.datetime_str dt))
      | PDate d => Ok (JStr (PyDatetime.date_str d))
      | PTime t =>
          match PyDatetime.t_tzinfo t with
          | Some _ => Err TimeHasTzinfo
          | None => Ok (JStr (PyDatetime.time_str t))
          end
      | PUUID u => Ok (JStr (PyDatetime.uuid_str u))
      | PList items | PTuple items =>
          if (RECURSION_LIMIT <=? depth)%nat then Err RecursionLimit
          else
            js <- map_m (serialize fuel' (S depth) calls) items ;;
            Ok (JArr js)
      | PDict entries =>
          if (RECURSION_LIMIT <=? depth)%nat then Err RecursionLimit
          else
            ms <- map_m
                    (fun kv : pyobj * pyobj =>
                       match fst kv with
                       | PStr k =>
                           j <- serialize fuel' (S depth) calls (snd kv) ;;
                           Ok (k, j)
                       | _ => Err KeyMustBeStr
                       end)
                    entries ;;
            Ok (JObj ms)
      | _ =>
          if (DEFAULT_CALLS_LIMIT <=? calls)%nat
          then Err DefaultRecursionLimit
          else
            match default obj with
            | Err exc => Err (UnsupportedType (tp_name obj) exc)
            | Ok r => serialize fuel' depth (S calls) r
            end
      end
  end.

Definition FUEL : nat := 512.

(** The document [orjson.dumps(obj, default=default)] writes. *)
Definition encode (obj : pyobj) : result encode_error json :=
  serialize FUEL 0 0 obj.

End Serialize.

(** Assignment [d[k] = v] on the entries of a dict being built. *)
Fixpoint dict_set (entries : list (pyobj * pyobj)) (k : string) (v : pyobj)
  : list (pyobj * pyobj) :=
  match entries with
  | [] => [(PStr k, v)]
  | (PStr k', v') :: rest =>
      if String.eqb k k' then (PStr k', v) :: rest
      else (PStr k', v') :: dict_set rest k v
  | e :: rest => e :: dict_set rest k v
  end.

(** [orjson.loads] on the bytes of a document: the Python value of the
    document. Object members are assigned to a fresh dict in document
    order. *)
Fixpoint decode (j : json) : pyobj :=
  match j with
  | JNull => PNone
  | JBool b => PBool b
  | JInt n => PInt n
  | JFloat f => PFloat f
  | JStr s => PStr s
  | JArr items => PList (map decode items)
  | JObj members =>
      PDict (fold_left
               (fun acc (m : string * json) =>
                  let (k, v) := m in dict_set acc k (decode v))
               members [])
  end.

End Orjson.

(** ** JSON text *)

Module JsonText.

Definition nl : string := String "010"%char EmptyString.
Definition dquote : string := String "034"%char EmptyString.
Definition backslash : string := String "092"%char EmptyString.

(** One character inside a string literal: the quote, the backslash and
    the control characters are escaped, everything else is written as it
    is. *)
Definition escape_char (c : ascii) : string :=
  let n := N_of_ascii c in
  if (n =? 34)%N then backslash ++ dquote
  else if (n =? 92)%N then backslash ++ backslash
  else if (n =? 8)%N then backslash ++ "b"
  else if (n =? 9)%N then backslash ++ "t"
  else if (n =? 10)%N then backslash ++ "n"
  else if (n =? 12)%N then backslash ++ "f"
  else if (n =? 13)%N then backslash ++ "r"
  else if (n <? 32)%N
       then backslash ++ "u00"
            ++ String (Fmt.hex_digit (n / 16))
                 (String (Fmt.hex_digit (n mod 16)) EmptyString)
  else String c EmptyString.

Fixpoint escape (s : string) : string :=
  match s with
  | EmptyString => EmptyString
  | String c s' => escape_char c ++ escape s'
  end.

Definition quote (s : string) : string := dquote ++ escape s ++ dquote.

Fixpoint join (sep : string) (parts : list string) : string :=
  match parts with
  | [] => EmptyString
  | [p] => p
  | p :: rest => p ++ sep ++ join sep rest
  end.

Fixpoint indent (depth : nat) : string :=
  match depth with
  | O => EmptyString
  | S d => "  " ++ indent d
  end.

Section Render.

(** The text the encoder writes for a finite binary64 value (the
    shortest decimal that reads back as the same value). Its digits are
    not modelled; the rendering is taken as a parameter. *)
Variable float_repr : spec_float -> string.

Definition scalar (j : json) : string :=
  match j with
  | JNull => "null"
  | JBool true => "true"
  | JBool false => "false"
  | JInt n => Fmt.dec_Z n
  | JFloat f => float_repr f
  | JStr s => quote s
  | _ => EmptyString
  end.

(** The default output of [orjson.dumps]: no whitespace. *)
Fixpoint compact (j : json) : string :=
  match j with
  | JArr items => "[" ++ join "," (map compact items) ++ "]"
  | JObj members =>
      "{" ++ join ","
               (map (fun m : string * json =>
                       quote (fst m) ++ ":" ++ compact (snd m))
                    members)
      ++ "}"
  | _ => scalar j
  end.

(** The output under [OPT_INDENT_2]: one item per line, each nesting
    level indented by two more spaces; an empty container stays on one
    line. *)
Fixpoint pretty (depth : nat) (j : json) : string :=
  match j with
  | JArr [] => "[]"
  | JArr items =>
      "[" ++ nl
      ++ join ("," ++ nl)
           (map (fun x => indent (S depth) ++ pretty (S depth) x) items)
      ++ nl ++ indent depth ++ "]"
  | JObj [] => "{}"
  | JObj members =>
      "{" ++ nl
      ++ join ("," ++ nl)
           (map (fun m : string * json =>
                   indent (S depth) ++ quote (fst m) ++ ": "
                   ++ pretty (S depth) (snd m))
                members)
      ++ nl ++ indent depth ++ "}"
  | _ => scalar j
  end.

End Render.

End JsonText.

(** ** json_utils.to_jsonable and json_utils.to_json *)

(** [orjson.loads(orjson.dumps(obj, default=_default))]: the value of the
    document the encoder writes for [obj]. *)
Definition to_jsonable (obj : pyobj) : result Orjson.encode_error pyobj :=
  j <- Orjson.encode _default obj ;;
  Ok (Orjson.decode j).

Section ToJson.

Variable float_repr : spec_float -> string.

(** [orjson.dumps(obj, default=_default, option=OPT_INDENT_2).decode()]. *)
Definition to_json (obj : pyobj) : result Orjson.encode_error string :=
  j <- Orjson.encode _default obj ;;
  Ok (JsonText.pretty float_repr 0 j).

End ToJson.

(** ** Properties of inputs used in the statements *)

(** The part of the dict rule of the serializer that handles one entry. *)
Definition serialize_entry (default : pyobj -> result pyexc pyobj)
    (fuel depth calls : nat) (kv : pyobj * pyobj)
  : result Orjson.encode_error (string * json) :=
  match fst kv with
  | PStr k =>
      j <- Orjson.serialize default fuel (S depth) calls (snd kv) ;; Ok (k, j)
  | _ => Err Orjson.KeyMustBeStr
  end.

(** The values the encoder writes as an array or an object. *)
Definition is_container (obj : pyobj) : bool :=
  match obj with
  | PList _ | PTuple _ | PDict _ => true
  | _ => false
  end.


(** An induction principle that reaches the items of containers. *)
Section PyobjInd.

Variable P : pyobj -> Prop.

Hypothesis HNone : P PNone.
Hypothesis HBool : forall b, P (PBool b).
Hypothesis HInt : forall n, P (PInt n).
Hypothesis HFloat : forall f, P (PFloat f).
Hypothesis HStr : forall s, P (PStr s).
Hypothesis HDecimal : forall d, P (PDecimal d).
Hypothesis HTimedelta : forall td, P (PTimedelta td).
Hypothesis HBytes : forall bs, P (PBytes bs).
Hypothesis HMemoryview : forall bs, P (PMemoryview bs).
Hypothesis HDatetime : forall dt, P (PDatetime dt).
Hypothesis HDate : forall d, P (PDate d).
Hypothesis HTime : forall t, P (PTime t).
Hypothesis HUUID : forall u, P (PUUID u).
Hypothesis HList : forall items, Forall P items -> P (PList items).
Hypothesis HTuple : forall items, Forall P items -> P (PTuple items).
Hypothesis HSet : forall items, Forall P items -> P (PSet items).
Hypothesis HFrozenset : forall items, Forall P items -> P (PFrozenset items).
Hypothesis HDict : forall entries,
    Forall (fun kv => P (fst kv) /\ P (snd kv)) entries -> P (PDict entries).
Hypothesis HObject : forall n, P (PObject n).


End PyobjInd.

(** The [str] keys of dict entries, in order. *)
Fixpoint str_keys (entries : list (pyobj * pyobj)) : list string :=
  match entries with
  | [] => []
  | (PStr k, _) :: rest => k :: str_keys rest
  | _ :: rest => str_keys rest
  end.

Fixpoint distinct (ks : list string) : bool :=
  match ks with
  | [] => true
  | k :: rest => negb (existsb (String.eqb k) rest) && distinct rest
  end.

(** The invariant of Python's [dict]: no key occurs twice. Only [str] keys
    matter to the codec, any other key is rejected by the encoder. *)
Fixpoint well_formed (obj : pyobj) : bool :=
  match obj with
  | PList items | PTuple items | PSet items | PFrozenset items =>
      forallb well_formed items
  | PDict entries =>
      distinct (str_keys entries)
      && forallb (fun kv : pyobj * pyobj =>
                    let (k, v) := kv in well_formed k && well_formed v)
           entries
  | _ => true
  end.


(** Two objects hold the same value: they agree everywhere except for the
    order in which their unordered collections enumerate their items. *)
Inductive same_value : pyobj -> pyobj -> Prop :=
| SvList l1 l2 : Forall2 same_value l1 l2 -> same_value (PList l1) (PList l2)
| SvTuple l1 l2 :
    Forall2 same_value l1 l2 -> same_value (PTuple l1) (PTuple l2)
| SvSet l1 l l2 :
    Permutation l1 l -> Forall2 same_value l l2 ->
    same_value (PSet l1) (PSet l2)
| SvFrozenset l1 l l2 :
    Permutation l1 l -> Forall2 same_value l l2 ->
    same_value (PFrozenset l1) (PFrozenset l2)
| SvDict es1 es2 :
    Forall2 (fun kv1 kv2 => same_value (fst kv1) (fst kv2)
                            /\ same_value (snd kv1) (snd kv2)) es1 es2 ->
    same_value (PDict es1) (PDict es2)
| SvSame x : same_value x x.

(** ** Layout of the pretty-printed text *)

Module Layout.

Definition is_newline (c : ascii) : bool := (N_of_ascii c =? 10)%N.

(** No line break occurs in [s]. *)
Fixpoint one_line (s : string) : bool :=
  match s with
  | EmptyString => true
  | String c s' => negb (is_newline c) && one_line s'
  end.

(** [s] moved one nesting level to the right: two spaces are put at the
    start of every line but the first. *)
Fixpoint shift2 (s : string) : string :=
  match s with
  | EmptyString => EmptyString
  | String c s' =>
      if is_newline c then String c ("  " ++ shift2 s')
      else String c (shift2 s')
  end.

End Layout.

(** ** The hypothetical-index explain operation *)

Module Server.

(** Modelled from the spec: the explain operation with hypothetical
    indexes ([explain_query] of [postgres_mcp.server], of which only
    tests are at hand). Sections 4.4, 4.5 and 6 of the specification give
    the steps; the database is a record of what its calls answer, and
    every call on it is logged. *)

Record index_spec : Type := IndexSpec {
  spec_table : string;
  spec_columns : list string
}.

Inductive error : Type :=
| MissingExtension (detail : string)
| UnsafeStatement (reason : string)
| ExecutionFailed (cause : string)
| QueryError (cause : string)
| PlanParseError.

(** Calls made on the database session. *)
Inductive event : Type :=
| CheckExtension
| BeginScope
| CreateIndex (spec : index_spec)
| PlanGeneration (statement : string)
| RemoveIndex (spec : index_spec)
| EndScope.

Record database : Type := Database {
  extension_installed : bool;
  extension_detail : string;
  (** the text rendering of the plan artifact EXPLAIN yields, or the
      failure of plan generation *)
  explain_plan : string -> list index_spec -> result error string;
  (** whether the extension accepts the creation of a virtual index *)
  create_index : index_spec -> result error unit
}.

(** A computation on the session: it extends the log of calls and
    returns or fails. *)
Definition session (A : Type) : Type :=
  list event -> result error A * list event.

Definition ret {A} (a : A) : session A := fun log => (Ok a, log).
Definition raise {A} (e : error) : session A := fun log => (Err e, log).
Definition call {A} (ev : event) (answer : result error A) : session A :=
  fun log => (answer, (log ++ [ev])%list).
Definition seq {A B} (m : session A) (k : A -> session B) : session B :=
  fun log =>
    match m log with
    | (Ok a, log') => k a log'
    | (Err e, log') => (Err e, log')
    end.
(** Run [m], then [cleanup] on every exit path, and pass on what [m]
    returned or raised. *)
Definition finally {A} (m : session A) (cleanup : session unit) : session A :=
  fun log =>
    let (r, log') := m log in
    let (_, log'') := cleanup log' in
    (r, log'').

Section Operations.

Variable db : database.

Definition checkExtensionInstalled : session (bool * string) :=
  call CheckExtension (Ok (extension_installed db, extension_detail db)).

Fixpoint create_all (specs : list index_spec) : session unit :=
  match specs with
  | [] => ret tt
  | s :: rest =>
      seq (call (CreateIndex s) (create_index db s))
          (fun _ => create_all rest)
  end.

(** Removal is attempted for every index, whatever the earlier removals
    did. *)
Fixpoint remove_all (specs : list index_spec) : session unit :=
  match specs with
  | [] => ret tt
  | s :: rest => seq (call (RemoveIndex s) (Ok tt)) (fun _ => remove_all rest)
  end.

(** Section 4.4: fail fast when the extension is missing; otherwise
    create the virtual indexes in a scope, run [body], and remove them
    on every exit path before the scope is released. *)
Definition withHypotheticalIndexes {A} (specs : list index_spec)
    (body : session A) : session A :=
  seq checkExtensionInstalled (fun st =>
    let (installed, detail) := st in
    if installed
    then
      seq (call BeginScope (Ok tt)) (fun _ =>
        finally (seq (create_all specs) (fun _ => body))
                (seq (remove_all specs) (fun _ => call EndScope (Ok tt))))
    else raise (MissingExtension detail)).

(** Section 4.5: a plain EXPLAIN inside the scope of 4.4. *)
Definition explainWithHypotheticalIndexes (statement : string)
    (specs : list index_spec) : session string :=
  withHypotheticalIndexes specs
    (call (PlanGeneration statement) (explain_plan db statement specs)).

(** Section 6, [explainHypothetical]: the artifact's text, or the
    detail message as the response text when the extension is missing;
    every other failure propagates. *)
Definition explainHypothetical (statement : string)
    (specs : list index_spec) : session string :=
  fun log =>
    match explainWithHypotheticalIndexes statement specs log with
    | (Err (MissingExtension detail), log') => (Ok detail, log')
    | other => other
    end.

End Operations.

Definition is_plan_generation (ev : event) : bool :=
  match ev with PlanGeneration _ => true | _ => false end.

End Server.

(** ** JSON-native values *)

(** The values made of JSON-native Python types only: [None], [bool],
    [int] within the encoder's range, finite [float], [str], [list] of
    such values and [dict] from [str] keys to such values. *)
Fixpoint json_native (obj : pyobj) : bool :=
  match obj with
  | PNone | PBool _ | PStr _ => true
  | PInt n => Orjson.int_in_range n
  | PFloat f => Orjson.float_is_finite f
  | PList items => forallb json_native items
  | PDict entries =>
      forallb (fun kv : pyobj * pyobj =>
                 let (k, v) := kv in
                 match k with
                 | PStr _ => json_native v
                 | _ => false
                 end)
        entries
  | _ => false
  end.

(** A dict entry of a JSON-native dict. *)
Definition native_entry (kv : pyobj * pyobj) : bool :=
  let (k, v) := kv in
  match k with
  | PStr _ => json_native v
  | _ => false
  end.

(** The items of a sequence-like value, in the order in which it
    enumerates them. *)
Definition sequence_items (obj : pyobj) : option (list pyobj) :=
  match obj with
  | PList items | PTuple items | PSet items | PFrozenset items => Some items
  | _ => None
  end.

(** An induction principle for documents that reaches the items of arrays
    and the values of objects. *)
Section JsonInd.

Variable P : json -> Prop.

Hypothesis HNull : P JNull.
Hypothesis HBool : forall b, P (JBool b).
Hypothesis HInt : forall n, P (JInt n).
Hypothesis HFloat : forall f, P (JFloat f).
Hypothesis HStr : forall s, P (JStr s).
Hypothesis HArr : forall items, Forall P items -> P (JArr items).
Hypothesis HObj : forall members,
    Forall (fun m : string * json => P (snd m)) members -> P (JObj members).

Fixpoint json_nested_ind (j : json) : P j :=
  match j with
  | JNull => HNull
  | JBool b => HBool b
  | JInt n => HInt n
  | JFloat f => HFloat f
  | JStr s => HStr s
  | JArr items =>
      HArr items
        ((fix go (l : list json) : Forall P l :=
            match l with
            | [] => Forall_nil P
            | x :: l' => Forall_cons x (json_nested_ind x) (go l')
            end) items)
  | JObj members =>
      HObj members
        ((fix go (l : list (string * json))
            : Forall (fun m : string * json => P (snd m)) l :=
            match l with
            | [] => Forall_nil _
            | (k, v) :: l' => Forall_cons (k, v) (json_nested_ind v) (go l')
            end) members)
  end.

End JsonInd.

(** ** The domain of the codec *)

(** The decimals the codec has an answer for: a finite decimal with a
    fractional part, a finite decimal without one whose value the encoder
    can write, and the quiet NaN. *)
Definition decimal_serializable (d : PyDecimal.t) : bool :=
  match d with
  | PyDecimal.Finite _ _ _ =>
      negb (PyDecimal.is_integral d)
      || Orjson.int_in_range (PyDecimal.int_value d)
  | PyDecimal.NaN _ signaling => negb signaling
  | PyDecimal.Infinity _ => false
  end.

(** The values made of types the encoder or the handler has a rule for,
    with integers the encoder can write, times without a zone and [str]
    keys in every dict. *)
Fixpoint serializable (obj : pyobj) : bool :=
  match obj with
  | PNone | PBool _ | PFloat _ | PStr _ | PTimedelta _ | PBytes _
  | PMemoryview _ | PDatetime _ | PDate _ | PUUID _ => true
  | PInt n => Orjson.int_in_range n
  | PDecimal d => decimal_serializable d
  | PTime t =>
      match PyDatetime.t_tzinfo t with
      | None => true
      | Some _ => false
      end
  | PList items | PTuple items | PSet items | PFrozenset items =>
      forallb serializable items
  | PDict entries =>
      forallb (fun kv : pyobj * pyobj =>
                 match fst kv with
                 | PStr _ => serializable (snd kv)
                 | _ => false
                 end)
        entries
  | PObject _ => false
  end.


(** * Properties *)

(** ** The result monad *)

Lemma bind_ok {E A B} (m : result E A) (k : A -> result E B) (b : B) :
  bind m k = Ok b -> exists a, m = Ok a /\ k a = Ok b.
Proof.
  destruct m as [a | e]; simpl; intros H; [eauto | discriminate].
Qed.

Lemma map_m_ok_Forall2 {E A B} (f : A -> result E B) (l : list A) (bs : list B) :
  map_m f l = Ok bs <-> Forall2 (fun a b => f a = Ok b) l bs.
Proof.
  revert bs; induction l as [| a l IH]; intros bs; simpl.
  - split.
    + intros H; injection H as <-; constructor.
    + intros H; inversion H; reflexivity.
  - split.
    + intros H.
      apply bind_ok in H as (b & Hb & H).
      apply bind_ok in H as (bs' & Hbs & H).
      injection H as <-.
      constructor; [exact Hb | apply IH, Hbs].
    + intros H; inversion H as [| a' b l' bs' Hb Hbs]; subst.
      rewrite Hb; simpl.
      apply IH in Hbs; rewrite Hbs; reflexivity.
Qed.

Lemma map_m_ext_in {E A B} (f g : A -> result E B) (l : list A) :
  Forall (fun a => f a = g a) l -> map_m f l = map_m g l.
Proof.
  induction 1 as [| a l Ha _ IH]; simpl; [reflexivity |].
  rewrite Ha, IH; reflexivity.
Qed.

(** Unfold the fixed fuel of [Orjson.encode] by one step. *)
Lemma FUEL_succ : Orjson.FUEL = S 511.
Proof. reflexivity. Qed.

Ltac encode_step :=
  unfold to_json, to_jsonable, Orjson.encode; rewrite FUEL_succ.

(** ** Text *)

Lemma string_length_app (s t : string) :
  String.length (s ++ t) = (String.length s + String.length t)%nat.
Proof.
  induction s as [| c s IH]; simpl; [reflexivity | rewrite IH; reflexivity].
Qed.

Lemma all_chars_app (p : ascii -> bool) (s t : string) :
  Fmt.all_chars p (s ++ t) = Fmt.all_chars p s && Fmt.all_chars p t.
Proof.
  induction s as [| c s IH]; simpl; [reflexivity |].
  rewrite IH, andb_assoc; reflexivity.
Qed.

Lemma hex_digit_lower (n : N) : Fmt.is_lower_hex (Fmt.hex_digit n) = true.
Proof.
  destruct n as [| p]; [reflexivity |].
  do 4 (try (destruct p as [p | p |]; try reflexivity)).
Qed.

Lemma hex_length (bs : list Byte.byte) :
  String.length (Fmt.hex bs) = (2 * List.length bs)%nat.
Proof.
  induction bs as [| b bs IH]; simpl; [reflexivity | rewrite IH; lia].
Qed.

Lemma hex_lower (bs : list Byte.byte) :
  Fmt.all_chars Fmt.is_lower_hex (Fmt.hex bs) = true.
Proof.
  induction bs as [| b bs IH]; simpl; [reflexivity |].
  rewrite !hex_digit_lower, IH; reflexivity.
Qed.

(** A lowercase hexadecimal digit is written unescaped. *)
Lemma escape_char_lower_hex (c : ascii) :
  Fmt.is_lower_hex c = true -> JsonText.escape_char c = String c EmptyString.
Proof.
  destruct c as [[] [] [] [] [] [] [] []]; intros H;
    solve [reflexivity | discriminate H].
Qed.

Lemma escape_lower_hex (s : string) :
  Fmt.all_chars Fmt.is_lower_hex s = true -> JsonText.escape s = s.
Proof.
  induction s as [| c s IH]; simpl; [reflexivity |].
  intros H; apply andb_prop in H as [Hc Hs].
  rewrite (escape_char_lower_hex c Hc), (IH Hs); reflexivity.
Qed.

(** ** Scalars the handler converts *)

(** One step of the serializer on a value the encoder has no native rule
    for: the default hook is called, and what it returns is serialized in
    its place. *)
Lemma serialize_non_native (default : pyobj -> result pyexc pyobj)
    (fuel depth calls : nat) (obj : pyobj) :
  Orjson.is_native obj = false ->
  Orjson.serialize default (S fuel) depth calls obj
  = if (Orjson.DEFAULT_CALLS_LIMIT <=? calls)%nat
    then Err Orjson.DefaultRecursionLimit
    else match default obj with
         | Err exc => Err (Orjson.UnsupportedType (Orjson.tp_name obj) exc)
         | Ok r => Orjson.serialize default fuel depth (S calls) r
         end.
Proof.
  destruct obj; intros H; try discriminate H; reflexivity.
Qed.

(** Wherever the traversal stands, a value the handler turns into text is
    written as that text. *)
Lemma serialize_via_default_str (fuel depth calls : nat) (obj : pyobj) (s : string) :
  Orjson.is_native obj = false ->
  _default obj = Ok (PStr s) ->
  (calls < Orjson.DEFAULT_CALLS_LIMIT)%nat ->
  Orjson.serialize _default (S (S fuel)) depth calls obj = Ok (JStr s).
Proof.
  intros Hnat Hdef Hcalls.
  apply Nat.leb_gt in Hcalls.
  rewrite (serialize_non_native _ _ _ _ _ Hnat), Hcalls, Hdef.
  reflexivity.
Qed.

(** An instance of a class without a rule stops the traversal wherever it
    is met. *)
Lemma serialize_object (fuel depth calls : nat) (n : string) :
  (calls < Orjson.DEFAULT_CALLS_LIMIT)%nat ->
  Orjson.serialize _default (S fuel) depth calls (PObject n)
  = Err (Orjson.UnsupportedType n
           (TypeError ("Object of type " ++ n ++ " is not JSON serializable"))).
Proof.
  intros Hcalls; apply Nat.leb_gt in Hcalls.
  rewrite serialize_non_native by reflexivity.
  rewrite Hcalls; reflexivity.
Qed.


(** C5 as stated fails: the text [to_json] returns for two bytes has six
    characters, the four hexadecimal digits and the two quotes of the JSON
    string literal. *)
Lemma to_json_bytes_length_counterexample :
  exists s : string,
    (forall float_repr,
        to_json float_repr (PBytes [Byte.xca; Byte.xfe]) = Ok s)
    /\ String.length s <> (2 * List.length [Byte.xca; Byte.xfe])%nat.
Proof.
  exists (JsonText.dquote ++ "cafe" ++ JsonText.dquote).
  split; [intros fr; reflexivity | simpl; lia].
Qed.

(** C5, amended. For bytes and for a memoryview of [n] bytes,
    [to_jsonable] returns a string of lowercase hexadecimal digits of
    length [2 * n], and [to_json] returns that string between two double
    quotes, [2 * n + 2] characters. *)
Theorem binary_to_lower_hex (float_repr : spec_float -> string)
    (bs : list Byte.byte) :
  let h := Fmt.hex bs in
  to_jsonable (PBytes bs) = Ok (PStr h)
  /\ to_jsonable (PMemoryview bs) = Ok (PStr h)
  /\ Fmt.all_chars Fmt.is_lower_hex h = true
  /\ String.length h = (2 * List.length bs)%nat
  /\ to_json float_repr (PBytes bs)
     = Ok (JsonText.dquote ++ h ++ JsonText.dquote)
  /\ to_json float_repr (PMemoryview bs)
     = Ok (JsonText.dquote ++ h ++ JsonText.dquote)
  /\ String.length (JsonText.dquote ++ h ++ JsonText.dquote)
     = (2 * List.length bs + 2)%nat.
Proof.
  intros h.
  assert (Hb : Orjson.encode _default (PBytes bs) = Ok (JStr h)).
  { unfold Orjson.encode; rewrite FUEL_succ.
    apply serialize_via_default_str; [reflexivity | reflexivity |].
    unfold Orjson.DEFAULT_CALLS_LIMIT; lia. }
  assert (Hm : Orjson.encode _default (PMemoryview bs) = Ok (JStr h)).
  { unfold Orjson.encode; rewrite FUEL_succ.
    apply serialize_via_default_str; [reflexivity | reflexivity |].
    unfold Orjson.DEFAULT_CALLS_LIMIT; lia. }
  assert (Hq : JsonText.quote h = JsonText.dquote ++ h ++ JsonText.dquote).
  { unfold JsonText.quote; rewrite (escape_lower_hex h (hex_lower bs)).
    reflexivity. }
  unfold to_jsonable, to_json; rewrite Hb, Hm; simpl bind.
  repeat split.
  - apply hex_lower.
  - apply hex_length.
  - simpl JsonText.pretty. unfold JsonText.scalar. rewrite Hq; reflexivity.
  - simpl JsonText.pretty. unfold JsonText.scalar. rewrite Hq; reflexivity.
  - unfold h; rewrite !string_length_app, hex_length; simpl; lia.
Qed.

(** The example of the specification and of [test_timedelta]. *)
Example timedelta_str_example :
  PyDatetime.timedelta_str (PyDatetime.make_timedelta 1 2 30 0 0)
  = "1 day, 2:30:00".
Proof. reflexivity. Qed.


(** ** Temporal values and UUIDs *)

Lemma hex_fixed_length (w : nat) (n : N) : String.length (Fmt.hex_fixed w n) = w.
Proof.
  revert n; induction w as [| w IH]; intros n; simpl; [reflexivity |].
  rewrite string_length_app, IH; simpl; lia.
Qed.

Lemma hex_fixed_lower (w : nat) (n : N) :
  Fmt.all_chars Fmt.is_lower_hex (Fmt.hex_fixed w n) = true.
Proof.
  revert n; induction w as [| w IH]; intros n; simpl; [reflexivity |].
  rewrite all_chars_app, IH; simpl.
  rewrite hex_digit_lower; reflexivity.
Qed.

Lemma substring_length (n m : nat) (s : string) :
  (n + m <= String.length s)%nat -> String.length (substring n m s) = m.
Proof.
  revert n m; induction s as [| c s IH]; intros n m H; simpl in H.
  - assert (n = 0 /\ m = 0)%nat as [-> ->] by lia; reflexivity.
  - destruct n as [| n]; simpl.
    + destruct m as [| m]; simpl; [reflexivity |].
      rewrite IH by lia; reflexivity.
    + apply IH; lia.
Qed.

Lemma all_chars_substring (p : ascii -> bool) (n m : nat) (s : string) :
  Fmt.all_chars p s = true -> Fmt.all_chars p (substring n m s) = true.
Proof.
  revert n m; induction s as [| c s IH]; intros n m H; simpl in *.
  - destruct n, m; reflexivity.
  - apply andb_prop in H as [Hc Hs].
    destruct n as [| n]; simpl.
    + destruct m as [| m]; simpl; [reflexivity |].
      rewrite Hc, IH by exact Hs; reflexivity.
    + apply IH, Hs.
Qed.

(** The values of [TestToJson] for the natively handled types. *)
Example datetime_str_example :
  PyDatetime.datetime_str
    (PyDatetime.Datetime (PyDatetime.Date 2024 1 15) 10 30 0 0
       (Some PyDatetime.utc))
  = "2024-01-15T10:30:00+00:00".
Proof. reflexivity. Qed.

Example date_str_example :
  PyDatetime.date_str (PyDatetime.Date 2024 6 15) = "2024-06-15".
Proof. reflexivity. Qed.

Example time_str_example :
  PyDatetime.time_str (PyDatetime.Time 14 30 0 0 None) = "14:30:00".
Proof. reflexivity. Qed.

Example uuid_str_example :
  PyDatetime.uuid_str 0x12345678123456781234567812345678
  = "12345678-1234-5678-1234-567812345678".
Proof. reflexivity. Qed.

(** The text of a UUID: five groups of 8, 4, 4, 4 and 12 lowercase
    hexadecimal digits, hyphens in between. *)
Lemma uuid_str_shape (u : N) :
  exists a b c d e : string,
    PyDatetime.uuid_str u = a ++ "-" ++ b ++ "-" ++ c ++ "-" ++ d ++ "-" ++ e
    /\ map String.length [a; b; c; d; e] = [8; 4; 4; 4; 12]%nat
    /\ forallb (Fmt.all_chars Fmt.is_lower_hex) [a; b; c; d; e] = true.
Proof.
  unfold PyDatetime.uuid_str.
  set (h := Fmt.hex_fixed 32 u).
  assert (Hlen : String.length h = 32%nat) by apply hex_fixed_length.
  assert (Hlow : Fmt.all_chars Fmt.is_lower_hex h = true)
    by apply hex_fixed_lower.
  exists (substring 0 8 h), (substring 8 4 h), (substring 12 4 h),
    (substring 16 4 h), (substring 20 12 h).
  split; [reflexivity |].
  split.
  - cbn [map]. rewrite !substring_length by (rewrite Hlen; lia). reflexivity.
  - cbn [forallb]. rewrite !all_chars_substring by exact Hlow. reflexivity.
Qed.



(** ** Decimals *)

Lemma signed_inj (s : bool) (a b : Z) :
  PyDecimal.signed s a = PyDecimal.signed s b <-> a = b.
Proof.
  unfold PyDecimal.signed; destruct s; lia.
Qed.

Lemma div_half_even_nonneg (c p : Z) :
  0 <= c -> 0 < p -> 0 <= PyDecimal.div_half_even c p.
Proof.
  intros Hc Hp; unfold PyDecimal.div_half_even.
  assert (0 <= c / p) by (apply Z.div_pos; lia).
  destruct (2 * (c mod p) ?= p); [destruct (Z.even (c / p)) | |]; lia.
Qed.

(** Rounding to an integer gives the number back exactly when the number
    is an integer. *)
Lemma div_half_even_exact (c p : Z) :
  0 <= c -> 0 < p ->
  (c =? PyDecimal.div_half_even c p * p) = (c mod p =? 0).
Proof.
  intros Hc Hp.
  destruct (Z.eqb_spec (c mod p) 0) as [Hr | Hr].
  - unfold PyDecimal.div_half_even; rewrite Hr.
    replace (2 * 0 ?= p) with Lt by (symmetry; apply Z.compare_lt_iff; lia).
    apply Z.eqb_eq.
    pose proof (Z.div_mod c p ltac:(lia)); lia.
  - apply Z.eqb_neq; intros Heq.
    apply Hr; rewrite Heq; apply Z.mod_mul; lia.
Qed.

(** The test [obj == obj.to_integral_value()] of the handler decides
    whether the fractional part of a finite decimal is zero. *)
Lemma decimal_eq_to_integral_value (s : bool) (c : N) (e : Z) :
  let d := PyDecimal.Finite s c e in
  (i <- PyDecimal.to_integral_value d ;; PyDecimal.eq d i)
  = Ok (PyDecimal.is_integral d).
Proof.
  simpl. destruct (Z.leb_spec 0 e) as [He | He]; simpl.
  - rewrite Z.min_id, Z.eqb_refl; reflexivity.
  - f_equal.
    assert (Hp : 0 < 10 ^ (- e)) by (apply Z.pow_pos_nonneg; lia).
    rewrite Z.min_l by lia.
    unfold PyDecimal.scaled.
    rewrite Z.sub_diag, Z.pow_0_r, Z.mul_1_r.
    replace (0 - e) with (- e) by lia.
    rewrite Z2N.id by (apply div_half_even_nonneg; lia).
    rewrite <- (div_half_even_exact (Z.of_N c) (10 ^ (- e))) by lia.
    destruct (Z.eqb_spec (Z.of_N c)
                (PyDecimal.div_half_even (Z.of_N c) (10 ^ (- e)) * 10 ^ (- e)))
      as [Heq | Hne].
    + apply Z.eqb_eq, signed_inj, Heq.
    + apply Z.eqb_neq; intros H; apply Hne, (signed_inj s), H.
Qed.

Lemma decimal_to_int_value (s : bool) (c : N) (e : Z) :
  PyDecimal.to_int (PyDecimal.Finite s c e)
  = Ok (PyDecimal.int_value (PyDecimal.Finite s c e)).
Proof.
  simpl; destruct (0 <=? e); reflexivity.
Qed.

Lemma decimal_to_float_finite (s : bool) (c : N) (e : Z) :
  exists f, PyDecimal.to_float (PyDecimal.Finite s c e) = Ok f.
Proof.
  simpl; destruct c; [eauto |]; destruct (0 <=? e); eauto.
Qed.

(** What the handler returns for a finite decimal. *)
Lemma default_decimal (s : bool) (c : N) (e : Z) :
  let d := PyDecimal.Finite s c e in
  _default (PDecimal d)
  = if PyDecimal.is_integral d
    then Ok (PInt (PyDecimal.int_value d))
    else f <- PyDecimal.to_float d ;; Ok (PFloat f).
Proof.
  intros d.
  pose proof (decimal_eq_to_integral_value s c e) as H.
  cbv zeta in H; fold d in H.
  change (_default (PDecimal d))
    with (i <- PyDecimal.to_integral_value d ;;
          same <- PyDecimal.eq d i ;;
          if same : bool
          then n <- PyDecimal.to_int d ;; Ok (PInt n)
          else f <- PyDecimal.to_float d ;; Ok (PFloat f)).
  destruct (PyDecimal.to_integral_value d) as [i | exc];
    cbn [bind] in H |- *; [| discriminate H].
  rewrite H; cbn [bind].
  destruct (PyDecimal.is_integral d); [| reflexivity].
  unfold d; rewrite decimal_to_int_value; reflexivity.
Qed.

(** [float(Decimal("19.99"))] is the binary64 value
    [5626684784446013 * 2 ^ -48], and [float(Decimal("0.5"))] is [0.5]. *)
Example decimal_to_float_examples :
  PyDecimal.to_float (PyDecimal.Finite false 1999 (-2))
  = Ok (S754_finite false 5626684784446013 (-48))
  /\ PyDecimal.to_float (PyDecimal.Finite false 5 (-1))
     = Ok (S754_finite false 4503599627370496 (-53)).
Proof. split; reflexivity. Qed.

(** The examples of the specification: [Decimal("42")] gives the integer
    42, [Decimal("19.99")] a float. *)
Example to_jsonable_decimal_examples :
  to_jsonable (PDecimal (PyDecimal.Finite false 42 0)) = Ok (PInt 42)
  /\ to_jsonable (PDecimal (PyDecimal.Finite false 1999 (-2)))
     = Ok (PFloat (S754_finite false 5626684784446013 (-48))).
Proof. split; reflexivity. Qed.

(** The special values: a quiet NaN becomes null, an infinity and a
    signaling NaN make the handler raise. *)
Example to_jsonable_decimal_special :
  to_jsonable (PDecimal (PyDecimal.NaN false false)) = Ok PNone
  /\ to_jsonable (PDecimal (PyDecimal.Infinity false))
     = Err (Orjson.UnsupportedType "decimal.Decimal"
              (OverflowError "cannot convert Infinity to integer"))
  /\ to_jsonable (PDecimal (PyDecimal.NaN false true))
     = Err (Orjson.UnsupportedType "decimal.Decimal" InvalidOperation).
Proof. repeat split; reflexivity. Qed.

(** C1 as stated fails: [Decimal("1E+20")] has no fractional part, yet
    [to_jsonable] does not return an integer for it: the integer the
    handler returns is beyond the 64-bit range of the encoder. *)
Lemma decimal_beyond_64_bits_counterexample :
  let d := PyDecimal.Finite false 1 20 in
  PyDecimal.is_integral d = true
  /\ to_jsonable (PDecimal d) = Err Orjson.IntegerRange
  /\ ~ (exists n, to_jsonable (PDecimal d) = Ok (PInt n)).
Proof.
  repeat split.
  intros [n H]; vm_compute in H; discriminate H.
Qed.

(** C1, amended. For a finite decimal whose fractional part is zero,
    [to_jsonable] returns its integer value when that fits the encoder's
    64-bit range [-2^63 .. 2^64-1] and fails with the integer-range error
    otherwise; for a finite decimal whose fractional part is not zero it
    returns [float(d)], the binary64 value nearest to the decimal, or null
    when that value is an infinity. So an integer is returned only for a
    decimal whose fractional part is zero. *)
Theorem to_jsonable_decimal (s : bool) (c : N) (e : Z) :
  let d := PyDecimal.Finite s c e in
  exists f : spec_float,
    PyDecimal.to_float d = Ok f
    /\ to_jsonable (PDecimal d)
       = if PyDecimal.is_integral d
         then if Orjson.int_in_range (PyDecimal.int_value d)
              then Ok (PInt (PyDecimal.int_value d))
              else Err Orjson.IntegerRange
         else Ok (if Orjson.float_is_finite f then PFloat f else PNone).
Proof.
  intros d.
  destruct (decimal_to_float_finite s c e) as [f Hf]; fold d in Hf.
  exists f; split; [exact Hf |].
  encode_step.
  rewrite serialize_non_native by reflexivity.
  replace (Orjson.DEFAULT_CALLS_LIMIT <=? 0)%nat with false by reflexivity.
  unfold d at 1; rewrite default_decimal; fold d.
  clearbody d.
  destruct (PyDecimal.is_integral d).
  - simpl. destruct (Orjson.int_in_range (PyDecimal.int_value d)); reflexivity.
  - rewrite Hf; simpl.
    destruct (Orjson.float_is_finite f); reflexivity.
Qed.

(** ** The explain operation without the extension *)

(** C2. On a database where the hypothetical-index extension is not
    installed, the explain operation with hypothetical indexes returns the
    detail message of the extension check as its text, it does not fail,
    and the only call it makes on the session is the extension check: no
    scope is opened, no index is created and plan generation is not
    invoked. *)
Theorem explain_missing_extension (db : Server.database)
    (statement : string) (specs : list Server.index_spec)
    (log : list Server.event) :
  Server.extension_installed db = false ->
  Server.explainHypothetical db statement specs log
  = (Ok (Server.extension_detail db), (log ++ [Server.CheckExtension])%list)
  /\ existsb Server.is_plan_generation
       (snd (Server.explainHypothetical db statement specs [])) = false.
Proof.
  intros Hmissing.
  unfold Server.explainHypothetical, Server.explainWithHypotheticalIndexes,
    Server.withHypotheticalIndexes, Server.seq, Server.checkExtensionInstalled,
    Server.call, Server.raise.
  rewrite Hmissing.
  split; reflexivity.
Qed.

Lemma explain_missing_extension_witness :
  let db :=
    Server.Database false "The hypopg extension is required"
      (fun _ _ => Ok "Index Scan using hypo_idx") (fun _ => Ok tt) in
  Server.explainHypothetical db
    "SELECT * FROM users WHERE email = 'test@example.com'"
    [Server.IndexSpec "users" ["email"]] []
  = (Ok "The hypopg extension is required", [Server.CheckExtension])
  /\ existsb Server.is_plan_generation
       (snd (Server.explainHypothetical db
               "SELECT * FROM users WHERE email = 'test@example.com'"
               [Server.IndexSpec "users" ["email"]] [])) = false.
Proof.
  intros db.
  apply (explain_missing_extension db
           "SELECT * FROM users WHERE email = 'test@example.com'"
           [Server.IndexSpec "users" ["email"]] []).
  reflexivity.
Defined.

(** With the extension installed the plan is generated inside the scope,
    after the indexes are created and before they are removed. *)
Example explain_with_extension :
  let db :=
    Server.Database true EmptyString
      (fun _ _ => Ok "Index Scan using hypo_idx") (fun _ => Ok tt) in
  let spec := Server.IndexSpec "users" ["email"] in
  Server.explainHypothetical db "SELECT 1" [spec] []
  = (Ok "Index Scan using hypo_idx",
     [Server.CheckExtension; Server.BeginScope; Server.CreateIndex spec;
      Server.PlanGeneration "SELECT 1"; Server.RemoveIndex spec;
      Server.EndScope]).
Proof. reflexivity. Qed.

(** ** Determinism *)




(** Two sets that hold the same value and enumerate it in different orders
    are written differently: the restriction of C8 is needed. *)
Example set_order_is_observable :
  same_value (PSet [PInt 1; PInt 2]) (PSet [PInt 2; PInt 1])
  /\ to_jsonable (PSet [PInt 1; PInt 2]) = Ok (PList [PInt 1; PInt 2])
  /\ to_jsonable (PSet [PInt 2; PInt 1]) = Ok (PList [PInt 2; PInt 1]).
Proof.
  split; [| split; reflexivity].
  apply SvSet with (l := [PInt 2; PInt 1]).
  - apply perm_swap.
  - repeat constructor.
Qed.



(** ** The serializer, step by step *)

Section SerializeSteps.

Variable default : pyobj -> result pyexc pyobj.

Lemma serialize_list (fuel depth calls : nat) (items : list pyobj) :
  Orjson.serialize default (S fuel) depth calls (PList items)
  = if (Orjson.RECURSION_LIMIT <=? depth)%nat then Err Orjson.RecursionLimit
    else js <- map_m (Orjson.serialize default fuel (S depth) calls) items ;;
         Ok (JArr js).
Proof. reflexivity. Qed.

Lemma serialize_tuple (fuel depth calls : nat) (items : list pyobj) :
  Orjson.serialize default (S fuel) depth calls (PTuple items)
  = if (Orjson.RECURSION_LIMIT <=? depth)%nat then Err Orjson.RecursionLimit
    else js <- map_m (Orjson.serialize default fuel (S depth) calls) items ;;
         Ok (JArr js).
Proof. reflexivity. Qed.

Lemma serialize_dict (fuel depth calls : nat) (entries : list (pyobj * pyobj)) :
  Orjson.serialize default (S fuel) depth calls (PDict entries)
  = if (Orjson.RECURSION_LIMIT <=? depth)%nat then Err Orjson.RecursionLimit
    else ms <- map_m (serialize_entry default fuel depth calls) entries ;;
         Ok (JObj ms).
Proof. reflexivity. Qed.

(** Scalars the encoder writes by itself do not look at the fuel. *)
Lemma serialize_native_scalar (fuel fuel' depth depth' calls calls' : nat)
    (obj : pyobj) :
  Orjson.is_native obj = true -> is_container obj = false ->
  Orjson.serialize default (S fuel) depth calls obj
  = Orjson.serialize default (S fuel') depth' calls' obj.
Proof.
  destruct obj; intros Hn Hc; try discriminate Hn; try discriminate Hc;
    reflexivity.
Qed.


End SerializeSteps.

(** ** Reading a written document back *)


Lemma str_keys_app (es1 es2 : list (pyobj * pyobj)) :
  str_keys (es1 ++ es2) = (str_keys es1 ++ str_keys es2)%list.
Proof.
  induction es1 as [| [k v] es1 IH]; simpl; [reflexivity |].
  destruct k; simpl; rewrite IH; reflexivity.
Qed.

Lemma distinct_app_notin (l : list string) (k : string) (r : list string) :
  distinct (l ++ k :: r) = true -> existsb (String.eqb k) l = false.
Proof.
  induction l as [| a l IH]; simpl; [reflexivity |].
  intros H; apply andb_prop in H as [Ha Hl].
  apply negb_true_iff in Ha.
  rewrite existsb_app in Ha; apply orb_false_iff in Ha as [_ Ha].
  simpl in Ha; apply orb_false_iff in Ha as [Hak _].
  rewrite String.eqb_sym, Hak; simpl.
  apply IH, Hl.
Qed.

(** Assigning a key the dict does not hold yet appends the entry. *)
Lemma dict_set_fresh (acc : list (pyobj * pyobj)) (k : string) (v : pyobj) :
  existsb (String.eqb k) (str_keys acc) = false ->
  Orjson.dict_set acc k v = (acc ++ [(PStr k, v)])%list.
Proof.
  induction acc as [| [k' v'] acc IH]; simpl; [reflexivity |].
  destruct k'; simpl; intros H; try (rewrite IH by exact H; reflexivity).
  apply orb_false_iff in H as [Hk H].
  rewrite Hk, IH by exact H; reflexivity.
Qed.

(** The members of an object whose keys are distinct become the entries of
    the dict, one for one and in order. *)
Lemma decode_members (ms : list (string * json)) :
  forall acc : list (pyobj * pyobj),
    distinct (str_keys acc ++ map fst ms) = true ->
    fold_left
      (fun acc (m : string * json) =>
         let (k, v) := m in Orjson.dict_set acc k (Orjson.decode v))
      ms acc
    = (acc ++ map (fun m => (PStr (fst m), Orjson.decode (snd m))) ms)%list.
Proof.
  induction ms as [| [k v] ms IH]; intros acc H; simpl.
  - rewrite app_nil_r; reflexivity.
  - simpl in H.
    rewrite dict_set_fresh by (eapply distinct_app_notin; exact H).
    rewrite IH.
    + rewrite <- app_assoc; reflexivity.
    + rewrite str_keys_app; simpl. rewrite <- app_assoc; exact H.
Qed.

Lemma decode_object (ms : list (string * json)) :
  distinct (map fst ms) = true ->
  Orjson.decode (JObj ms)
  = PDict (map (fun m => (PStr (fst m), Orjson.decode (snd m))) ms).
Proof.
  intros H; simpl; rewrite decode_members by exact H; reflexivity.
Qed.


(** The entries the serializer accepted have [str] keys, the keys of the
    members it wrote. *)
Lemma serialize_entries_keys (default : pyobj -> result pyexc pyobj)
    (fuel depth calls : nat) (entries : list (pyobj * pyobj))
    (ms : list (string * json)) :
  Forall2 (fun kv m => serialize_entry default fuel depth calls kv = Ok m)
    entries ms ->
  map fst entries = map (fun m => PStr (fst m)) ms
  /\ str_keys entries = map fst ms.
Proof.
  induction 1 as [| [k v] [k' j] entries ms H _ [IHk IHs]]; [split; reflexivity |].
  unfold serialize_entry in H; simpl in H.
  destruct k; try discriminate H.
  apply bind_ok in H as (j' & _ & H); injection H as -> ->.
  simpl; rewrite IHk, IHs; split; reflexivity.
Qed.




(** ** Round trip and idempotence *)

(** [Orjson.encode] starts the serializer at depth zero with no handler
    call made. *)
Lemma encode_eq (default : pyobj -> result pyexc pyobj) (x : pyobj) :
  Orjson.encode default x = Orjson.serialize default Orjson.FUEL 0 0 x.
Proof. reflexivity. Qed.


Lemma to_jsonable_eq (x : pyobj) :
  to_jsonable x = (j <- Orjson.encode _default x ;; Ok (Orjson.decode j)).
Proof. reflexivity. Qed.

Lemma to_json_eq (fr : spec_float -> string) (x : pyobj) :
  to_json fr x = (j <- Orjson.encode _default x ;; Ok (JsonText.pretty fr 0 j)).
Proof. reflexivity. Qed.

(** What a successful [to_jsonable] returns is the value of the document
    the encoder wrote. *)
Lemma to_jsonable_ok (x y : pyobj) :
  to_jsonable x = Ok y ->
  exists j, Orjson.encode _default x = Ok j /\ y = Orjson.decode j.
Proof.
  rewrite to_jsonable_eq.
  destruct (Orjson.encode _default x) as [j | e]; simpl; intros H;
    [| discriminate H].
  injection H as <-. exists j; split; reflexivity.
Qed.






(** ** What [to_jsonable] returns *)

Lemma to_jsonable_intro (x : pyobj) (j : json) :
  Orjson.encode _default x = Ok j -> to_jsonable x = Ok (Orjson.decode j).
Proof.
  intros Hj; rewrite to_jsonable_eq, Hj; reflexivity.
Qed.

Lemma dict_set_native (acc : list (pyobj * pyobj)) (k : string) (v : pyobj) :
  forallb native_entry acc = true -> json_native v = true ->
  forallb native_entry (Orjson.dict_set acc k v) = true.
Proof.
  intros Hacc Hv.
  induction acc as [| [k' v'] acc IH]; simpl in *.
  - rewrite Hv; reflexivity.
  - apply andb_prop in Hacc as [Hk Hrest].
    destruct k'; try discriminate Hk.
    destruct (String.eqb k s); simpl.
    + rewrite Hv, Hrest; reflexivity.
    + rewrite Hk, (IH Hrest); reflexivity.
Qed.

Lemma decode_members_native (ms : list (string * json)) :
  Forall (fun m => json_native (Orjson.decode (snd m)) = true) ms ->
  forall acc,
    forallb native_entry acc = true ->
    forallb native_entry
      (fold_left
         (fun acc (m : string * json) =>
            let (k, v) := m in Orjson.dict_set acc k (Orjson.decode v))
         ms acc) = true.
Proof.
  induction 1 as [| [k v] ms Hm _ IH]; intros acc Hacc; simpl; [exact Hacc |].
  apply IH, dict_set_native; assumption.
Qed.

Section SerializeNative.

Variable default : pyobj -> result pyexc pyobj.

(** Every document the serializer writes reads back as a JSON-native
    value. *)
Lemma serialize_decode_native (fuel : nat) :
  forall (depth calls : nat) (obj : pyobj) (j : json),
    Orjson.serialize default fuel depth calls obj = Ok j ->
    json_native (Orjson.decode j) = true.
Proof.
  induction fuel as [| fuel IH]; intros depth calls obj j H;
    [discriminate H |].
  assert (Hitems : forall items js,
             map_m (Orjson.serialize default fuel (S depth) calls) items = Ok js ->
             forallb json_native (map Orjson.decode js) = true).
  { intros items js Hm. apply map_m_ok_Forall2 in Hm.
    induction Hm as [| a b items js Hab _ IHm]; simpl; [reflexivity |].
    rewrite (IH _ _ _ _ Hab), IHm; reflexivity. }
  destruct (Orjson.is_native obj) eqn:Hnative.
  - destruct (is_container obj) eqn:Hcont.
    + destruct obj; try discriminate Hcont.
      * rewrite serialize_list in H.
        destruct (Orjson.RECURSION_LIMIT <=? depth)%nat; [discriminate H |].
        apply bind_ok in H as (js & Hm & H); injection H as <-.
        exact (Hitems _ _ Hm).
      * rewrite serialize_tuple in H.
        destruct (Orjson.RECURSION_LIMIT <=? depth)%nat; [discriminate H |].
        apply bind_ok in H as (js & Hm & H); injection H as <-.
        exact (Hitems _ _ Hm).
      * rewrite serialize_dict in H.
        destruct (Orjson.RECURSION_LIMIT <=? depth)%nat; [discriminate H |].
        apply bind_ok in H as (ms & Hm & H); injection H as <-.
        apply map_m_ok_Forall2 in Hm.
        change (json_native (Orjson.decode (JObj ms)))
          with (forallb native_entry
                  (fold_left
                     (fun acc (m : string * json) =>
                        let (k, v) := m in
                        Orjson.dict_set acc k (Orjson.decode v))
                     ms [])).
        apply decode_members_native; [| reflexivity].
        clear -IH Hm.
        induction Hm as [| [k v] [k' jv] entries ms Hentry _ IHm];
          constructor; [| exact IHm].
        unfold serialize_entry in Hentry; simpl in Hentry.
        destruct k; try discriminate Hentry.
        apply bind_ok in Hentry as (jv' & Hjv & Hentry).
        injection Hentry as _ <-.
        simpl; eapply IH; exact Hjv.
    + destruct obj; try discriminate Hnative; try discriminate Hcont;
        simpl in H.
      * injection H as <-; reflexivity.
      * injection H as <-; reflexivity.
      * destruct (Orjson.int_in_range n) eqn:Hrange; [| discriminate H].
        injection H as <-; exact Hrange.
      * injection H as <-.
        destruct (Orjson.float_is_finite f) eqn:Hfin; simpl;
          [exact Hfin | reflexivity].
      * injection H as <-; reflexivity.
      * injection H as <-; reflexivity.
      * injection H as <-; reflexivity.
      * destruct (PyDatetime.t_tzinfo t); [discriminate H |].
        injection H as <-; reflexivity.
      * injection H as <-; reflexivity.
  - rewrite serialize_non_native in H by exact Hnative.
    destruct (Orjson.DEFAULT_CALLS_LIMIT <=? calls)%nat; [discriminate H |].
    destruct (default obj) as [r | exc]; [| discriminate H].
    eapply IH; exact H.
Qed.

End SerializeNative.

(** The postcondition in the docstring of [to_jsonable]: what it returns
    contains JSON-native Python types only, with every integer inside the
    64-bit range and every float finite. *)
Theorem to_jsonable_returns_native (x y : pyobj) :
  to_jsonable x = Ok y -> json_native y = true.
Proof.
  intros Hy.
  apply to_jsonable_ok in Hy as (j & Hj & ->).
  rewrite encode_eq in Hj.
  exact (serialize_decode_native _default _ _ _ _ _ Hj).
Qed.

Lemma to_jsonable_returns_native_witness :
  json_native
    (PDict [(PStr "price", PFloat (S754_finite false 5626684784446013 (-48)));
            (PStr "tags", PList [PInt 1; PInt 2]);
            (PStr "nan", PNone)]) = true.
Proof.
  apply (to_jsonable_returns_native
           (PDict [(PStr "price", PDecimal (PyDecimal.Finite false 1999 (-2)));
                   (PStr "tags", PFrozenset [PInt 1; PInt 2]);
                   (PStr "nan", PDecimal (PyDecimal.NaN false false))])).
  vm_compute; reflexivity.
Defined.

(** ** Limits only ever turn a result into an error *)

Section SerializeRelax.

Variable default : pyobj -> result pyexc pyobj.

(** A result obtained deep in the traversal is obtained as well with more
    fuel, at a smaller depth and after fewer handler calls. *)
Lemma serialize_relax (fuel : nat) :
  forall (fuel' depth depth' calls calls' : nat) (obj : pyobj) (j : json),
    (fuel <= fuel')%nat -> (depth' <= depth)%nat -> (calls' <= calls)%nat ->
    Orjson.serialize default fuel depth calls obj = Ok j ->
    Orjson.serialize default fuel' depth' calls' obj = Ok j.
Proof.
  induction fuel as [| fuel IH];
    intros fuel' depth depth' calls calls' obj j Hf Hd Hc H;
    [discriminate H |].
  destruct fuel' as [| fuel']; [lia |].
  assert (Hitems : forall items js,
             map_m (Orjson.serialize default fuel (S depth) calls) items = Ok js ->
             map_m (Orjson.serialize default fuel' (S depth') calls') items
             = Ok js).
  { intros items js Hm. apply map_m_ok_Forall2 in Hm. apply map_m_ok_Forall2.
    eapply Forall2_impl; [| exact Hm]. intros a b Hab.
    apply (IH fuel' (S depth) (S depth') calls calls' a b); try lia.
    exact Hab. }
  assert (Hdepth : (Orjson.RECURSION_LIMIT <=? depth)%nat = false ->
                   (Orjson.RECURSION_LIMIT <=? depth')%nat = false).
  { intros Hb. apply Nat.leb_gt in Hb. apply Nat.leb_gt. lia. }
  destruct (Orjson.is_native obj) eqn:Hnative.
  - destruct (is_container obj) eqn:Hcont.
    + destruct obj; try discriminate Hcont.
      * rewrite serialize_list in H |- *.
        destruct (Orjson.RECURSION_LIMIT <=? depth)%nat eqn:Hlim;
          [discriminate H |].
        rewrite (Hdepth eq_refl).
        apply bind_ok in H as (js & Hm & H).
        rewrite (Hitems _ _ Hm); exact H.
      * rewrite serialize_tuple in H |- *.
        destruct (Orjson.RECURSION_LIMIT <=? depth)%nat eqn:Hlim;
          [discriminate H |].
        rewrite (Hdepth eq_refl).
        apply bind_ok in H as (js & Hm & H).
        rewrite (Hitems _ _ Hm); exact H.
      * rewrite serialize_dict in H |- *.
        destruct (Orjson.RECURSION_LIMIT <=? depth)%nat eqn:Hlim;
          [discriminate H |].
        rewrite (Hdepth eq_refl).
        apply bind_ok in H as (ms & Hm & H).
        replace (map_m (serialize_entry default fuel' depth' calls') entries)
          with (Ok (E := Orjson.encode_error) ms); [exact H |].
        symmetry. apply map_m_ok_Forall2 in Hm. apply map_m_ok_Forall2.
        eapply Forall2_impl; [| exact Hm].
        intros [k v] m; unfold serialize_entry; simpl fst; simpl snd.
        destruct k; try discriminate.
        intros Hkv; apply bind_ok in Hkv as (jv & Hv & Hkv).
        rewrite (IH fuel' (S depth) (S depth') calls calls' v jv); try lia;
          [exact Hkv | exact Hv].
    + rewrite (serialize_native_scalar default fuel' fuel depth' depth
                 calls' calls) by assumption.
      exact H.
  - rewrite serialize_non_native in H |- * by assumption.
    destruct (Orjson.DEFAULT_CALLS_LIMIT <=? calls)%nat eqn:Hlim;
      [discriminate H |].
    replace (Orjson.DEFAULT_CALLS_LIMIT <=? calls')%nat with false
      by (symmetry; apply Nat.leb_gt; apply Nat.leb_gt in Hlim; lia).
    destruct (default obj) as [r | exc]; [| discriminate H].
    apply (IH fuel' depth depth' (S calls) (S calls') r j); try lia.
    exact H.
Qed.

End SerializeRelax.

(** What is written for a part of the input is what [to_jsonable] returns
    for that part on its own. *)
Lemma to_jsonable_of_part (fuel depth calls : nat) (x : pyobj) (j : json) :
  (fuel <= Orjson.FUEL)%nat ->
  Orjson.serialize _default fuel depth calls x = Ok j ->
  to_jsonable x = Ok (Orjson.decode j).
Proof.
  intros Hfuel H.
  apply to_jsonable_intro.
  rewrite encode_eq.
  apply (serialize_relax _default fuel Orjson.FUEL depth 0%nat calls 0%nat x j);
    try lia; exact H.
Qed.

Lemma to_jsonable_of_items (fuel depth calls : nat) (items : list pyobj)
    (js : list json) :
  (fuel <= Orjson.FUEL)%nat ->
  map_m (Orjson.serialize _default fuel depth calls) items = Ok js ->
  Forall2 (fun x y => to_jsonable x = Ok y) items (map Orjson.decode js).
Proof.
  intros Hfuel Hm. apply map_m_ok_Forall2 in Hm.
  induction Hm as [| a b items js Hab _ IH]; simpl; constructor;
    [| exact IH].
  exact (to_jsonable_of_part fuel depth calls a b Hfuel Hab).
Qed.

Lemma default_set (items : list pyobj) :
  _default (PSet items) = Ok (PList items).
Proof. reflexivity. Qed.

Lemma default_frozenset (items : list pyobj) :
  _default (PFrozenset items) = Ok (PList items).
Proof. reflexivity. Qed.

(** The document written for a sequence-like value is the array of the
    documents written for its items. *)
Lemma serialize_sequence (fuel depth calls : nat) (obj : pyobj)
    (items : list pyobj) (j : json) :
  sequence_items obj = Some items ->
  (fuel <= Orjson.FUEL)%nat ->
  Orjson.serialize _default fuel depth calls obj = Ok j ->
  exists js : list json,
    j = JArr js
    /\ Forall2 (fun x y => to_jsonable x = Ok y) items (map Orjson.decode js).
Proof.
  intros Hitems Hfuel H.
  assert (Hlist : forall fuel calls,
             (fuel <= Orjson.FUEL)%nat ->
             Orjson.serialize _default fuel depth calls (PList items) = Ok j ->
             exists js,
               j = JArr js
               /\ Forall2 (fun x y => to_jsonable x = Ok y) items
                    (map Orjson.decode js)).
  { clear fuel calls Hfuel H. intros fuel calls Hfuel H.
    destruct fuel as [| fuel]; [discriminate H |].
    rewrite serialize_list in H.
    destruct (Orjson.RECURSION_LIMIT <=? depth)%nat; [discriminate H |].
    apply bind_ok in H as (js & Hm & H); injection H as <-.
    exists js; split; [reflexivity |].
    apply (to_jsonable_of_items fuel (S depth) calls); [lia | exact Hm]. }
  destruct obj; try discriminate Hitems; injection Hitems as ->.
  - exact (Hlist fuel calls Hfuel H).
  - destruct fuel as [| fuel]; [discriminate H |].
    rewrite serialize_tuple in H; rewrite <- serialize_list in H.
    exact (Hlist (S fuel) calls Hfuel H).
  - destruct fuel as [| fuel]; [discriminate H |].
    rewrite serialize_non_native in H by reflexivity.
    destruct (Orjson.DEFAULT_CALLS_LIMIT <=? calls)%nat; [discriminate H |].
    rewrite default_set in H.
    apply (Hlist fuel (S calls)); [lia | exact H].
  - destruct fuel as [| fuel]; [discriminate H |].
    rewrite serialize_non_native in H by reflexivity.
    destruct (Orjson.DEFAULT_CALLS_LIMIT <=? calls)%nat; [discriminate H |].
    rewrite default_frozenset in H.
    apply (Hlist fuel (S calls)); [lia | exact H].
Qed.

(** [to_jsonable] on a list, a tuple, a set or a frozenset returns the list
    of what it returns for the items, in the order in which the input
    enumerates them. *)
Theorem to_jsonable_sequence (obj y : pyobj) (items : list pyobj) :
  sequence_items obj = Some items ->
  to_jsonable obj = Ok y ->
  exists ys : list pyobj,
    y = PList ys /\ Forall2 (fun x y => to_jsonable x = Ok y) items ys.
Proof.
  intros Hitems Hy.
  apply to_jsonable_ok in Hy as (j & Hj & ->).
  rewrite encode_eq in Hj.
  destruct (serialize_sequence _ _ _ _ _ _ Hitems (le_n _) Hj)
    as (js & -> & Hjs).
  exists (map Orjson.decode js); split; [reflexivity | exact Hjs].
Qed.

Lemma to_jsonable_sequence_witness :
  exists ys : list pyobj,
    PList [PInt 1; PStr "cafe"; PNone] = PList ys
    /\ Forall2 (fun x y => to_jsonable x = Ok y)
         [PDecimal (PyDecimal.Finite false 10 (-1));
          PBytes [Byte.xca; Byte.xfe]; PFloat S754_nan] ys.
Proof.
  apply (to_jsonable_sequence
           (PFrozenset [PDecimal (PyDecimal.Finite false 10 (-1));
                        PBytes [Byte.xca; Byte.xfe]; PFloat S754_nan])).
  - reflexivity.
  - vm_compute; reflexivity.
Defined.

(** The document written for a dict is the object whose members are, entry
    by entry, the key and the document written for the value. *)
Lemma serialize_dict_entries (fuel depth calls : nat)
    (entries : list (pyobj * pyobj)) (j : json) :
  (fuel <= Orjson.FUEL)%nat ->
  Orjson.serialize _default fuel depth calls (PDict entries) = Ok j ->
  exists ms : list (string * json),
    j = JObj ms
    /\ str_keys entries = map fst ms
    /\ Forall2 (fun (e : pyobj * pyobj) (m : string * json) =>
                  fst e = PStr (fst m)
                  /\ to_jsonable (snd e) = Ok (Orjson.decode (snd m)))
         entries ms.
Proof.
  intros Hfuel H.
  destruct fuel as [| fuel]; [discriminate H |].
  rewrite serialize_dict in H.
  destruct (Orjson.RECURSION_LIMIT <=? depth)%nat; [discriminate H |].
  apply bind_ok in H as (ms & Hm & H); injection H as <-.
  apply map_m_ok_Forall2 in Hm.
  exists ms; split; [reflexivity |].
  split; [exact (proj2 (serialize_entries_keys _ _ _ _ _ _ Hm)) |].
  eapply Forall2_impl; [| exact Hm].
  intros [k v] [k' jv] Hentry.
  unfold serialize_entry in Hentry; simpl in Hentry |- *.
  destruct k; try discriminate Hentry.
  apply bind_ok in Hentry as (jv' & Hjv & Hentry).
  injection Hentry as <- <-.
  split; [reflexivity |].
  apply (to_jsonable_of_part fuel (S depth) calls); [lia | exact Hjv].
Qed.

(** [to_jsonable] on a dict returns a dict with the same keys in the same
    order, each value replaced by what [to_jsonable] returns for it. *)
Theorem to_jsonable_dict (entries : list (pyobj * pyobj)) (y : pyobj) :
  well_formed (PDict entries) = true ->
  to_jsonable (PDict entries) = Ok y ->
  exists es : list (pyobj * pyobj),
    y = PDict es
    /\ map fst es = map fst entries
    /\ Forall2 (fun e e' : pyobj * pyobj =>
                  to_jsonable (snd e) = Ok (snd e')) entries es.
Proof.
  intros Hwf Hy.
  apply to_jsonable_ok in Hy as (j & Hj & ->).
  rewrite encode_eq in Hj.
  destruct (serialize_dict_entries _ _ _ _ _ (le_n _) Hj)
    as (ms & -> & Hkeys & Hms).
  simpl in Hwf; apply andb_prop in Hwf as [Hdistinct _].
  rewrite Hkeys in Hdistinct.
  rewrite (decode_object ms Hdistinct).
  exists (map (fun m => (PStr (fst m), Orjson.decode (snd m))) ms).
  split; [reflexivity |].
  clear Hj Hkeys Hdistinct.
  induction Hms as [| [k v] [k' jv] entries ms [Hk Hv] _ [IHk IHv]];
    simpl; [split; constructor |].
  simpl in Hk, Hv; subst k.
  split; [rewrite IHk; reflexivity | constructor; [exact Hv | exact IHv]].
Qed.

Lemma to_jsonable_dict_witness :
  exists es : list (pyobj * pyobj),
    PDict [(PStr "b", PInt 1000); (PStr "a", PStr "0:00:05")] = PDict es
    /\ map fst es = [PStr "b"; PStr "a"]
    /\ Forall2 (fun e e' : pyobj * pyobj =>
                  to_jsonable (snd e) = Ok (snd e'))
         [(PStr "b", PDecimal (PyDecimal.Finite false 1000 0));
          (PStr "a", PTimedelta (PyDatetime.make_timedelta 0 0 0 5 0))] es.
Proof.
  apply (to_jsonable_dict
           [(PStr "b", PDecimal (PyDecimal.Finite false 1000 0));
            (PStr "a", PTimedelta (PyDatetime.make_timedelta 0 0 0 5 0))]).
  - reflexivity.
  - vm_compute; reflexivity.
Defined.

(** ** The layout of the text *)

Lemma one_line_app (s t : string) :
  Layout.one_line (s ++ t) = Layout.one_line s && Layout.one_line t.
Proof.
  induction s as [| c s IH]; simpl; [reflexivity |].
  rewrite IH, andb_assoc; reflexivity.
Qed.

Lemma shift2_app (s t : string) :
  Layout.shift2 (s ++ t) = Layout.shift2 s ++ Layout.shift2 t.
Proof.
  induction s as [| c s IH]; simpl; [reflexivity |].
  destruct (Layout.is_newline c); simpl; rewrite IH; reflexivity.
Qed.

Lemma shift2_one_line (s : string) :
  Layout.one_line s = true -> Layout.shift2 s = s.
Proof.
  induction s as [| c s IH]; simpl; [reflexivity |].
  intros H; apply andb_prop in H as [Hc Hs].
  apply negb_true_iff in Hc; rewrite Hc, (IH Hs); reflexivity.
Qed.

Lemma one_line_escape_char (c : ascii) :
  Layout.one_line (JsonText.escape_char c) = true.
Proof.
  destruct c as [[] [] [] [] [] [] [] []]; reflexivity.
Qed.

(** No line break occurs inside a string literal. *)
Lemma one_line_quote (s : string) : Layout.one_line (JsonText.quote s) = true.
Proof.
  unfold JsonText.quote.
  rewrite !one_line_app.
  assert (He : Layout.one_line (JsonText.escape s) = true).
  { induction s as [| c s IH]; simpl; [reflexivity |].
    rewrite one_line_app, one_line_escape_char, IH; reflexivity. }
  rewrite He; reflexivity.
Qed.

Lemma one_line_string_of_uint (d : Decimal.uint) :
  Layout.one_line (NilEmpty.string_of_uint d) = true.
Proof.
  induction d; simpl; try rewrite IHd; reflexivity.
Qed.

Lemma one_line_dec (n : N) : Layout.one_line (Fmt.dec n) = true.
Proof.
  unfold Fmt.dec, NilZero.string_of_uint.
  destruct (N.to_uint n); try reflexivity; apply one_line_string_of_uint.
Qed.

Lemma one_line_dec_Z (z : Z) : Layout.one_line (Fmt.dec_Z z) = true.
Proof.
  destruct z as [| p | p]; [apply one_line_dec | apply one_line_dec |].
  change (Fmt.dec_Z (Z.neg p)) with ("-" ++ Fmt.dec (N.pos p)).
  rewrite one_line_app, one_line_dec; reflexivity.
Qed.

Lemma one_line_indent (d : nat) : Layout.one_line (JsonText.indent d) = true.
Proof.
  induction d as [| d IH]; simpl; [reflexivity | exact IH].
Qed.

Lemma shift2_nl : Layout.shift2 JsonText.nl = JsonText.nl ++ "  ".
Proof. reflexivity. Qed.

Lemma string_app_assoc (s t u : string) : (s ++ t) ++ u = s ++ t ++ u.
Proof.
  induction s as [| c s IH]; simpl; [reflexivity | rewrite IH; reflexivity].
Qed.

Lemma join_shift2 (parts : list string) :
  Layout.shift2 (JsonText.join ("," ++ JsonText.nl) parts)
  = JsonText.join ("," ++ JsonText.nl ++ "  ") (map Layout.shift2 parts).
Proof.
  induction parts as [| p parts IH]; [reflexivity |].
  destruct parts as [| q parts]; [reflexivity |].
  change (JsonText.join ("," ++ JsonText.nl) (p :: q :: parts))
    with (p ++ ("," ++ JsonText.nl)
            ++ JsonText.join ("," ++ JsonText.nl) (q :: parts)).
  change (JsonText.join ("," ++ JsonText.nl ++ "  ")
            (map Layout.shift2 (p :: q :: parts)))
    with (Layout.shift2 p ++ ("," ++ JsonText.nl ++ "  ")
            ++ JsonText.join ("," ++ JsonText.nl ++ "  ")
                 (map Layout.shift2 (q :: parts))).
  rewrite !shift2_app, IH; reflexivity.
Qed.

(** Two spaces in front of lines joined by a separator that ends with two
    spaces are two spaces in front of every line. *)
Lemma join_indent (sep : string) (parts : list string) :
  parts <> [] ->
  "  " ++ JsonText.join (sep ++ "  ") parts
  = JsonText.join sep (map (fun p => "  " ++ p) parts).
Proof.
  induction parts as [| p parts IH]; [congruence |]; intros _.
  destruct parts as [| q parts]; [reflexivity |].
  change (JsonText.join (sep ++ "  ") (p :: q :: parts))
    with (p ++ (sep ++ "  ") ++ JsonText.join (sep ++ "  ") (q :: parts)).
  change (JsonText.join sep (map (fun p => "  " ++ p) (p :: q :: parts)))
    with (("  " ++ p) ++ sep
            ++ JsonText.join sep (map (fun p => "  " ++ p) (q :: parts))).
  rewrite <- IH by discriminate.
  rewrite !string_app_assoc; reflexivity.
Qed.

Section PrettyShift.

Variable float_repr : spec_float -> string.

(** The text of a number holds no line break. *)
Hypothesis float_repr_one_line :
  forall f, Layout.one_line (float_repr f) = true.

Lemma one_line_scalar (j : json) :
  Layout.one_line (JsonText.scalar float_repr j) = true.
Proof.
  destruct j as [| [] | n | f | s | items | members]; simpl;
    try reflexivity.
  - apply one_line_dec_Z.
  - apply float_repr_one_line.
  - apply one_line_quote.
Qed.

(** The layout of a non-empty array or object: the opening bracket, one
    line per item at the next depth, the closing bracket on a line of its
    own at this depth. *)
Lemma pretty_block (open close : string) (depth : nat) (lines : list string) :
  lines <> [] ->
  Layout.shift2
    (open ++ JsonText.nl ++ JsonText.join ("," ++ JsonText.nl) lines
       ++ JsonText.nl ++ JsonText.indent depth ++ close)
  = Layout.shift2 open ++ JsonText.nl
    ++ JsonText.join ("," ++ JsonText.nl)
         (map (fun l => "  " ++ Layout.shift2 l) lines)
    ++ JsonText.nl ++ JsonText.indent (S depth) ++ Layout.shift2 close.
Proof.
  intros Hlines.
  rewrite !shift2_app, shift2_nl, join_shift2.
  rewrite (shift2_one_line _ (one_line_indent depth)).
  rewrite <- (map_map Layout.shift2 (fun p => "  " ++ p)).
  rewrite <- (join_indent ("," ++ JsonText.nl))
    by (destruct lines; [congruence | discriminate]).
  change (JsonText.indent (S depth)) with ("  " ++ JsonText.indent depth).
  rewrite !string_app_assoc.
  reflexivity.
Qed.

(** A document written one nesting level deeper is the same text moved two
    spaces to the right. *)
Lemma pretty_shift (j : json) :
  forall depth : nat,
    JsonText.pretty float_repr (S depth) j
    = Layout.shift2 (JsonText.pretty float_repr depth j).
Proof.
  pattern j; apply json_nested_ind; clear j.
  - intros depth; reflexivity.
  - intros [] depth; reflexivity.
  - intros n depth; symmetry.
    exact (shift2_one_line _ (one_line_scalar (JInt n))).
  - intros f depth; symmetry.
    exact (shift2_one_line _ (one_line_scalar (JFloat f))).
  - intros s depth; symmetry.
    exact (shift2_one_line _ (one_line_scalar (JStr s))).
  - intros items IH depth.
    destruct items as [| x xs]; [reflexivity |].
    change (JsonText.pretty float_repr (S depth) (JArr (x :: xs)))
      with ("[" ++ JsonText.nl
            ++ JsonText.join ("," ++ JsonText.nl)
                 (map (fun y => JsonText.indent (S (S depth))
                                ++ JsonText.pretty float_repr (S (S depth)) y)
                    (x :: xs))
            ++ JsonText.nl ++ JsonText.indent (S depth) ++ "]").
    change (JsonText.pretty float_repr depth (JArr (x :: xs)))
      with ("[" ++ JsonText.nl
            ++ JsonText.join ("," ++ JsonText.nl)
                 (map (fun y => JsonText.indent (S depth)
                                ++ JsonText.pretty float_repr (S depth) y)
                    (x :: xs))
            ++ JsonText.nl ++ JsonText.indent depth ++ "]").
    rewrite pretty_block by (simpl; discriminate).
    rewrite map_map.
    change (Layout.shift2 "[") with "[".
    change (Layout.shift2 "]") with "]".
    rewrite Forall_forall in IH.
    rewrite (map_ext_in
               (fun y => JsonText.indent (S (S depth))
                         ++ JsonText.pretty float_repr (S (S depth)) y)
               (fun y => "  " ++ Layout.shift2
                                   (JsonText.indent (S depth)
                                    ++ JsonText.pretty float_repr (S depth) y)));
      [reflexivity |].
    intros y Hy.
    rewrite (IH y Hy (S depth)), shift2_app.
    rewrite (shift2_one_line _ (one_line_indent (S depth))).
    change (JsonText.indent (S (S depth)))
      with ("  " ++ JsonText.indent (S depth)).
    rewrite string_app_assoc; reflexivity.
  - intros members IH depth.
    destruct members as [| m ms]; [reflexivity |].
    change (JsonText.pretty float_repr (S depth) (JObj (m :: ms)))
      with ("{" ++ JsonText.nl
            ++ JsonText.join ("," ++ JsonText.nl)
                 (map (fun e : string * json =>
                         JsonText.indent (S (S depth))
                         ++ JsonText.quote (fst e) ++ ": "
                         ++ JsonText.pretty float_repr (S (S depth)) (snd e))
                    (m :: ms))
            ++ JsonText.nl ++ JsonText.indent (S depth) ++ "}").
    change (JsonText.pretty float_repr depth (JObj (m :: ms)))
      with ("{" ++ JsonText.nl
            ++ JsonText.join ("," ++ JsonText.nl)
                 (map (fun e : string * json =>
                         JsonText.indent (S depth)
                         ++ JsonText.quote (fst e) ++ ": "
                         ++ JsonText.pretty float_repr (S depth) (snd e))
                    (m :: ms))
            ++ JsonText.nl ++ JsonText.indent depth ++ "}").
    rewrite pretty_block by (simpl; discriminate).
    rewrite map_map.
    change (Layout.shift2 "{") with "{".
    change (Layout.shift2 "}") with "}".
    rewrite Forall_forall in IH.
    rewrite (map_ext_in
               (fun e : string * json =>
                  JsonText.indent (S (S depth))
                  ++ JsonText.quote (fst e) ++ ": "
                  ++ JsonText.pretty float_repr (S (S depth)) (snd e))
               (fun e : string * json =>
                  "  " ++ Layout.shift2
                            (JsonText.indent (S depth)
                             ++ JsonText.quote (fst e) ++ ": "
                             ++ JsonText.pretty float_repr (S depth) (snd e))));
      [reflexivity |].
    intros e He.
    rewrite (IH e He (S depth)), !shift2_app.
    rewrite (shift2_one_line _ (one_line_indent (S depth))).
    rewrite (shift2_one_line _ (one_line_quote (fst e))).
    change (Layout.shift2 ": ") with ": ".
    change (JsonText.indent (S (S depth)))
      with ("  " ++ JsonText.indent (S depth)).
    rewrite string_app_assoc; reflexivity.
Qed.

End PrettyShift.

(** What is written for a part of the input is what the encoder writes for
    that part on its own. *)
Lemma encode_of_part (fuel depth calls : nat) (x : pyobj) (j : json) :
  (fuel <= Orjson.FUEL)%nat ->
  Orjson.serialize _default fuel depth calls x = Ok j ->
  Orjson.encode _default x = Ok j.
Proof.
  intros Hfuel H.
  rewrite encode_eq.
  apply (serialize_relax _default fuel Orjson.FUEL depth 0%nat calls 0%nat x j);
    try lia; exact H.
Qed.

Lemma encode_sequence (fuel depth calls : nat) (obj : pyobj)
    (items : list pyobj) (j : json) :
  sequence_items obj = Some items ->
  (fuel <= Orjson.FUEL)%nat ->
  Orjson.serialize _default fuel depth calls obj = Ok j ->
  exists js : list json,
    j = JArr js
    /\ Forall2 (fun x jx => Orjson.encode _default x = Ok jx) items js.
Proof.
  intros Hitems Hfuel H.
  assert (Hlist : forall fuel calls,
             (fuel <= Orjson.FUEL)%nat ->
             Orjson.serialize _default fuel depth calls (PList items) = Ok j ->
             exists js,
               j = JArr js
               /\ Forall2 (fun x jx => Orjson.encode _default x = Ok jx)
                    items js).
  { clear fuel calls Hfuel H. intros fuel calls Hfuel H.
    destruct fuel as [| fuel]; [discriminate H |].
    rewrite serialize_list in H.
    destruct (Orjson.RECURSION_LIMIT <=? depth)%nat; [discriminate H |].
    apply bind_ok in H as (js & Hm & H); injection H as <-.
    exists js; split; [reflexivity |].
    apply map_m_ok_Forall2 in Hm.
    eapply Forall2_impl; [| exact Hm].
    intros a b Hab.
    apply (encode_of_part fuel (S depth) calls); [lia | exact Hab]. }
  destruct obj; try discriminate Hitems; injection Hitems as ->.
  - exact (Hlist fuel calls Hfuel H).
  - destruct fuel as [| fuel]; [discriminate H |].
    rewrite serialize_tuple in H; rewrite <- serialize_list in H.
    exact (Hlist (S fuel) calls Hfuel H).
  - destruct fuel as [| fuel]; [discriminate H |].
    rewrite serialize_non_native in H by reflexivity.
    destruct (Orjson.DEFAULT_CALLS_LIMIT <=? calls)%nat; [discriminate H |].
    rewrite default_set in H.
    apply (Hlist fuel (S calls)); [lia | exact H].
  - destruct fuel as [| fuel]; [discriminate H |].
    rewrite serialize_non_native in H by reflexivity.
    destruct (Orjson.DEFAULT_CALLS_LIMIT <=? calls)%nat; [discriminate H |].
    rewrite default_frozenset in H.
    apply (Hlist fuel (S calls)); [lia | exact H].
Qed.

Lemma encode_dict (fuel depth calls : nat) (entries : list (pyobj * pyobj))
    (j : json) :
  (fuel <= Orjson.FUEL)%nat ->
  Orjson.serialize _default fuel depth calls (PDict entries) = Ok j ->
  exists ms : list (string * json),
    j = JObj ms
    /\ Forall2 (fun (e : pyobj * pyobj) (m : string * json) =>
                  fst e = PStr (fst m)
                  /\ Orjson.encode _default (snd e) = Ok (snd m))
         entries ms.
Proof.
  intros Hfuel H.
  destruct fuel as [| fuel]; [discriminate H |].
  rewrite serialize_dict in H.
  destruct (Orjson.RECURSION_LIMIT <=? depth)%nat; [discriminate H |].
  apply bind_ok in H as (ms & Hm & H); injection H as <-.
  apply map_m_ok_Forall2 in Hm.
  exists ms; split; [reflexivity |].
  eapply Forall2_impl; [| exact Hm].
  intros [k v] [k' jv] Hentry.
  unfold serialize_entry in Hentry; simpl in Hentry |- *.
  destruct k; try discriminate Hentry.
  apply bind_ok in Hentry as (jv' & Hjv & Hentry).
  injection Hentry as <- <-.
  split; [reflexivity |].
  apply (encode_of_part fuel (S depth) calls); [lia | exact Hjv].
Qed.

Lemma to_json_ok (fr : spec_float -> string) (x : pyobj) (s : string) :
  to_json fr x = Ok s ->
  exists j, Orjson.encode _default x = Ok j /\ s = JsonText.pretty fr 0 j.
Proof.
  rewrite to_json_eq; intros H.
  apply bind_ok in H as (j & Hj & H); injection H as <-.
  exists j; split; [exact Hj | reflexivity].
Qed.

Lemma to_json_intro (fr : spec_float -> string) (x : pyobj) (j : json) :
  Orjson.encode _default x = Ok j ->
  to_json fr x = Ok (JsonText.pretty fr 0 j).
Proof. intros H; rewrite to_json_eq, H; reflexivity. Qed.

(** The text of a list, a tuple, a set or a frozenset. An empty one is
    written [[]]. Otherwise the text is an opening bracket on a line of
    its own, then the text [to_json] gives for each item on its own, in
    the order of the input, every line of it moved two spaces to the
    right and the items separated by a comma at the end of the line, then
    the closing bracket on a line of its own. *)
Theorem to_json_sequence_layout (float_repr : spec_float -> string)
    (obj : pyobj) (items : list pyobj) (s : string) :
  (forall f, Layout.one_line (float_repr f) = true) ->
  sequence_items obj = Some items ->
  to_json float_repr obj = Ok s ->
  exists texts : list string,
    Forall2 (fun x t => to_json float_repr x = Ok t) items texts
    /\ s = match texts with
           | [] => "[]"
           | _ => "[" ++ JsonText.nl
                  ++ JsonText.join ("," ++ JsonText.nl)
                       (map (fun t => "  " ++ Layout.shift2 t) texts)
                  ++ JsonText.nl ++ "]"
           end.
Proof.
  intros Hfloat Hitems Hs.
  apply to_json_ok in Hs as (j & Hj & ->).
  rewrite encode_eq in Hj.
  destruct (encode_sequence _ _ _ _ _ _ Hitems (le_n _) Hj) as (js & -> & Hjs).
  exists (map (JsonText.pretty float_repr 0) js); split.
  - clear Hj Hitems. induction Hjs as [| x jx items' js Hx _ IH]; simpl;
      [constructor |].
    constructor; [exact (to_json_intro float_repr x jx Hx) | exact IH].
  - destruct js as [| jx js]; [reflexivity |].
    change (JsonText.pretty float_repr 0 (JArr (jx :: js)))
      with ("[" ++ JsonText.nl
            ++ JsonText.join ("," ++ JsonText.nl)
                 (map (fun y => JsonText.indent 1
                                ++ JsonText.pretty float_repr 1 y)
                    (jx :: js))
            ++ JsonText.nl ++ JsonText.indent 0 ++ "]").
    rewrite map_map.
    rewrite (map_ext
               (fun y => JsonText.indent 1 ++ JsonText.pretty float_repr 1 y)
               (fun y => "  " ++ Layout.shift2
                                   (JsonText.pretty float_repr 0 y)));
      [reflexivity |].
    intros y; rewrite (pretty_shift float_repr Hfloat y 0); reflexivity.
Qed.

Lemma to_json_sequence_layout_witness :
  exists texts : list string,
    Forall2 (fun x t => to_json (fun _ => "0.5") x = Ok t)
      [PList [PInt 1; PInt 2]; PBytes [Byte.xca; Byte.xfe]] texts
    /\ "[" ++ JsonText.nl ++ "  [" ++ JsonText.nl ++ "    1," ++ JsonText.nl
       ++ "    2" ++ JsonText.nl ++ "  ]," ++ JsonText.nl
       ++ "  " ++ JsonText.quote "cafe" ++ JsonText.nl ++ "]"
       = match texts with
         | [] => "[]"
         | _ => "[" ++ JsonText.nl
                ++ JsonText.join ("," ++ JsonText.nl)
                     (map (fun t => "  " ++ Layout.shift2 t) texts)
                ++ JsonText.nl ++ "]"
         end.
Proof.
  apply (to_json_sequence_layout (fun _ => "0.5")
           (PTuple [PList [PInt 1; PInt 2]; PBytes [Byte.xca; Byte.xfe]])).
  - intros f; reflexivity.
  - reflexivity.
  - vm_compute; reflexivity.
Defined.

(** The text of a dict. An empty one is written [{}]. Otherwise the text
    is an opening brace on a line of its own, then one member per entry in
    the order of the input: two spaces, the key as a JSON string, a colon
    and a space, and the text [to_json] gives for the value on its own
    with every further line of it moved two spaces to the right; the
    members are separated by a comma at the end of the line and the
    closing brace is on a line of its own. *)
Theorem to_json_dict_layout (float_repr : spec_float -> string)
    (entries : list (pyobj * pyobj)) (s : string) :
  (forall f, Layout.one_line (float_repr f) = true) ->
  to_json float_repr (PDict entries) = Ok s ->
  exists members : list (string * string),
    Forall2 (fun (e : pyobj * pyobj) (m : string * string) =>
               fst e = PStr (fst m)
               /\ to_json float_repr (snd e) = Ok (snd m))
      entries members
    /\ s = match members with
           | [] => "{}"
           | _ => "{" ++ JsonText.nl
                  ++ JsonText.join ("," ++ JsonText.nl)
                       (map (fun m : string * string =>
                               "  " ++ JsonText.quote (fst m) ++ ": "
                               ++ Layout.shift2 (snd m))
                          members)
                  ++ JsonText.nl ++ "}"
           end.
Proof.
  intros Hfloat Hs.
  apply to_json_ok in Hs as (j & Hj & ->).
  rewrite encode_eq in Hj.
  destruct (encode_dict _ _ _ _ _ (le_n _) Hj) as (ms & -> & Hms).
  exists (map (fun m : string * json =>
                 (fst m, JsonText.pretty float_repr 0 (snd m))) ms); split.
  - clear Hj.
    induction Hms as [| e m entries' ms [Hk Hv] _ IH]; simpl;
      [constructor |].
    constructor; [| exact IH].
    split; [exact Hk | exact (to_json_intro float_repr _ _ Hv)].
  - destruct ms as [| m ms]; [reflexivity |].
    change (JsonText.pretty float_repr 0 (JObj (m :: ms)))
      with ("{" ++ JsonText.nl
            ++ JsonText.join ("," ++ JsonText.nl)
                 (map (fun e : string * json =>
                         JsonText.indent 1 ++ JsonText.quote (fst e) ++ ": "
                         ++ JsonText.pretty float_repr 1 (snd e))
                    (m :: ms))
            ++ JsonText.nl ++ JsonText.indent 0 ++ "}").
    rewrite map_map.
    rewrite (map_ext
               (fun e : string * json =>
                  JsonText.indent 1 ++ JsonText.quote (fst e) ++ ": "
                  ++ JsonText.pretty float_repr 1 (snd e))
               (fun e : string * json =>
                  "  " ++ JsonText.quote (fst e) ++ ": "
                  ++ Layout.shift2 (JsonText.pretty float_repr 0 (snd e))));
      [reflexivity |].
    intros e; rewrite (pretty_shift float_repr Hfloat (snd e) 0); reflexivity.
Qed.

Lemma to_json_dict_layout_witness :
  exists members : list (string * string),
    Forall2 (fun (e : pyobj * pyobj) (m : string * string) =>
               fst e = PStr (fst m)
               /\ to_json (fun _ => "0.5") (snd e) = Ok (snd m))
      [(PStr "b", PDict [(PStr "x", PNone)]); (PStr "a", PInt 7)]
      members
    /\ "{" ++ JsonText.nl ++ "  " ++ JsonText.quote "b" ++ ": {"
       ++ JsonText.nl ++ "    " ++ JsonText.quote "x" ++ ": null"
       ++ JsonText.nl ++ "  }," ++ JsonText.nl
       ++ "  " ++ JsonText.quote "a" ++ ": 7" ++ JsonText.nl ++ "}"
       = match members with
         | [] => "{}"
         | _ => "{" ++ JsonText.nl
                ++ JsonText.join ("," ++ JsonText.nl)
                     (map (fun m : string * string =>
                             "  " ++ JsonText.quote (fst m) ++ ": "
                             ++ Layout.shift2 (snd m))
                        members)
                ++ JsonText.nl ++ "}"
         end.
Proof.
  apply (to_json_dict_layout (fun _ => "0.5")
           [(PStr "b", PDict [(PStr "x", PNone)]);
            (PStr "a", PInt 7)]).
  - intros f; reflexivity.
  - vm_compute; reflexivity.
Defined.

(** ** The domain of the codec *)


(** Whatever the serializer writes a document for is in the domain. *)
Lemma serialize_serializable (fuel : nat) :
  forall (depth calls : nat) (obj : pyobj) (j : json),
    Orjson.serialize _default fuel depth calls obj = Ok j ->
    serializable obj = true.
Proof.
  induction fuel as [| fuel IH]; intros depth calls obj j H;
    [discriminate H |].
  assert (Hitems : forall items js,
             map_m (Orjson.serialize _default fuel (S depth) calls) items = Ok js ->
             forallb serializable items = true).
  { intros items js Hm. apply map_m_ok_Forall2 in Hm.
    induction Hm as [| a b items js Hab _ IHm]; simpl; [reflexivity |].
    rewrite (IH _ _ _ _ Hab), IHm; reflexivity. }
  destruct (Orjson.is_native obj) eqn:Hnative.
  - destruct obj; try discriminate Hnative; try reflexivity.
    + simpl in H |- *. destruct (Orjson.int_in_range n);
        [reflexivity | discriminate H].
    + simpl in H |- *. destruct (PyDatetime.t_tzinfo t);
        [discriminate H | reflexivity].
    + rewrite serialize_list in H.
      destruct (Orjson.RECURSION_LIMIT <=? depth)%nat; [discriminate H |].
      apply bind_ok in H as (js & Hm & _). exact (Hitems _ _ Hm).
    + rewrite serialize_tuple in H.
      destruct (Orjson.RECURSION_LIMIT <=? depth)%nat; [discriminate H |].
      apply bind_ok in H as (js & Hm & _). exact (Hitems _ _ Hm).
    + rewrite serialize_dict in H.
      destruct (Orjson.RECURSION_LIMIT <=? depth)%nat; [discriminate H |].
      apply bind_ok in H as (ms & Hm & _).
      apply map_m_ok_Forall2 in Hm. clear Hnative.
      induction Hm as [| [k v] m entries ms Hkv _ IHm]; [reflexivity |].
      change (serializable (PDict ((k, v) :: entries)))
        with (match k with
              | PStr _ => serializable v
              | _ => false
              end && serializable (PDict entries)).
      rewrite IHm, Bool.andb_true_r.
      unfold serialize_entry in Hkv; simpl in Hkv.
      destruct k; try discriminate Hkv.
      apply bind_ok in Hkv as (jv & Hv & _).
      exact (IH _ _ _ _ Hv).
  - rewrite serialize_non_native in H by assumption.
    destruct (Orjson.DEFAULT_CALLS_LIMIT <=? calls)%nat; [discriminate H |].
    destruct obj; try discriminate Hnative; try reflexivity.
    + destruct d as [s c e | [|] | s [|]]; try discriminate H.
      * rewrite default_decimal in H.
        change (serializable (PDecimal (PyDecimal.Finite s c e)))
          with (negb (PyDecimal.is_integral (PyDecimal.Finite s c e))
                || Orjson.int_in_range
                     (PyDecimal.int_value (PyDecimal.Finite s c e))).
        destruct (PyDecimal.is_integral (PyDecimal.Finite s c e));
          [| reflexivity].
        exact (IH _ _ _ _ H).
      * reflexivity.
    + rewrite default_set in H. exact (IH _ _ _ _ H).
    + rewrite default_frozenset in H. exact (IH _ _ _ _ H).
    + discriminate H.
Qed.








(** Error behaviour. A value outside the domain of the codec (one that
    holds, at any depth, an instance of a class without a rule, an integer
    beyond the 64-bit range, an integral decimal beyond it, an infinite
    decimal or a signaling NaN, a time with a zone, or a dict key that is
    not a [str]) makes [to_jsonable] and [to_json] raise, both with the
    same error: nothing is returned for it. *)
Theorem codec_rejects_outside_domain (float_repr : spec_float -> string)
    (obj : pyobj) :
  serializable obj = false ->
  exists e : Orjson.encode_error,
    to_jsonable obj = Err e /\ to_json float_repr obj = Err e.
Proof.
  intros Hout.
  rewrite to_jsonable_eq, to_json_eq.
  destruct (Orjson.encode _default obj) as [j | e] eqn:Hj.
  - rewrite encode_eq in Hj.
    rewrite (serialize_serializable _ _ _ _ _ Hj) in Hout; discriminate Hout.
  - exists e; split; reflexivity.
Qed.

Lemma codec_rejects_outside_domain_witness :
  exists e : Orjson.encode_error,
    to_jsonable
      (PDict [(PStr "rows", PList [PTuple [PInt 1; PObject "Point"]])])
    = Err e
    /\ to_json (fun _ => "0.5")
         (PDict [(PStr "rows", PList [PTuple [PInt 1; PObject "Point"]])])
       = Err e.
Proof.
  apply (codec_rejects_outside_domain (fun _ => "0.5")
           (PDict [(PStr "rows", PList [PTuple [PInt 1; PObject "Point"]])])).
  reflexivity.
Defined.





(** ** The fuel of the serializer *)

Section FuelStable.

Variable default : pyobj -> result pyexc pyobj.

(** The fuel is never what stops a run: every step of the traversal uses
    one unit of fuel and goes one container deeper or follows one more
    handler call, and both are bounded by the limits of the encoder.
    With enough fuel for both limits the result, a document or an error,
    does not depend on the fuel. *)
Lemma serialize_fuel_stable (fuel : nat) :
  forall (fuel' depth calls : nat) (obj : pyobj),
    (depth <= Orjson.RECURSION_LIMIT)%nat ->
    (calls <= Orjson.DEFAULT_CALLS_LIMIT)%nat ->
    (Orjson.RECURSION_LIMIT + Orjson.DEFAULT_CALLS_LIMIT
     < fuel + depth + calls)%nat ->
    (Orjson.RECURSION_LIMIT + Orjson.DEFAULT_CALLS_LIMIT
     < fuel' + depth + calls)%nat ->
    Orjson.serialize default fuel depth calls obj
    = Orjson.serialize default fuel' depth calls obj.
Proof.
  induction fuel as [| fuel IH];
    intros fuel' depth calls obj Hdepth Hcalls Hfuel Hfuel'; [lia |].
  destruct fuel' as [| fuel']; [lia |].
  destruct (Orjson.is_native obj) eqn:Hnative.
  - destruct (is_container obj) eqn:Hcont.
    + destruct obj; try discriminate Hcont.
      * rewrite !serialize_list.
        destruct (Nat.leb_spec Orjson.RECURSION_LIMIT depth) as [Hlim | Hlim];
          [reflexivity |].
        rewrite (map_m_ext_in
                   (Orjson.serialize default fuel (S depth) calls)
                   (Orjson.serialize default fuel' (S depth) calls));
          [reflexivity |].
        apply Forall_forall; intros a _; apply IH; lia.
      * rewrite !serialize_tuple.
        destruct (Nat.leb_spec Orjson.RECURSION_LIMIT depth) as [Hlim | Hlim];
          [reflexivity |].
        rewrite (map_m_ext_in
                   (Orjson.serialize default fuel (S depth) calls)
                   (Orjson.serialize default fuel' (S depth) calls));
          [reflexivity |].
        apply Forall_forall; intros a _; apply IH; lia.
      * rewrite !serialize_dict.
        destruct (Nat.leb_spec Orjson.RECURSION_LIMIT depth) as [Hlim | Hlim];
          [reflexivity |].
        rewrite (map_m_ext_in
                   (serialize_entry default fuel depth calls)
                   (serialize_entry default fuel' depth calls));
          [reflexivity |].
        apply Forall_forall; intros [k v] _.
        unfold serialize_entry; simpl fst; simpl snd.
        destruct k; try reflexivity.
        rewrite (IH fuel' (S depth) calls v); [reflexivity | lia ..].
    + apply serialize_native_scalar; assumption.
  - rewrite !serialize_non_native by assumption.
    destruct (Nat.leb_spec Orjson.DEFAULT_CALLS_LIMIT calls) as [Hlim | Hlim];
      [reflexivity |].
    destruct (default obj) as [r | exc]; [| reflexivity].
    apply IH; lia.
Qed.

(** More fuel than [Orjson.FUEL] gives the result of [Orjson.encode]. *)
Lemma encode_fuel_stable (fuel : nat) (obj : pyobj) :
  (Orjson.FUEL <= fuel)%nat ->
  Orjson.serialize default fuel 0 0 obj = Orjson.encode default obj.
Proof.
  intros Hfuel.
  rewrite encode_eq.
  apply serialize_fuel_stable; try lia.
  - pose proof FUEL_succ as HF.
    unfold Orjson.RECURSION_LIMIT, Orjson.DEFAULT_CALLS_LIMIT. lia.
  - pose proof FUEL_succ as HF.
    unfold Orjson.RECURSION_LIMIT, Orjson.DEFAULT_CALLS_LIMIT. lia.
Qed.

End FuelStable.

(** ** The handler *)

(** What [to_jsonable] returns for binary data. *)
Lemma to_jsonable_binary (bs : list Byte.byte) :
  to_jsonable (PBytes bs) = Ok (PStr (Fmt.hex bs))
  /\ to_jsonable (PMemoryview bs) = Ok (PStr (Fmt.hex bs)).
Proof.
  split; apply (to_jsonable_intro _ (JStr (Fmt.hex bs)));
    rewrite encode_eq, FUEL_succ;
    (apply serialize_via_default_str;
     [reflexivity | reflexivity | unfold Orjson.DEFAULT_CALLS_LIMIT; lia]).
Qed.

Lemma hex_byte_inj (a b : Byte.byte) :
  Fmt.hex_byte a = Fmt.hex_byte b -> a = b.
Proof.
  intros H.
  pose (val := fun c : ascii =>
                 let n := N_of_ascii c in
                 if (n <? 58)%N then (n - 48)%N else (n - 87)%N).
  pose (back := fun s : string =>
                  match s with
                  | String c1 (String c2 _) => Byte.of_N (val c1 * 16 + val c2)
                  | _ => None
                  end).
  assert (Hback : forall x, back (Fmt.hex_byte x) = Some x)
    by (intros x; destruct x; vm_compute; reflexivity).
  pose proof (Hback a) as Ha.
  rewrite H, Hback in Ha.
  injection Ha as ->; reflexivity.
Qed.

Lemma hex_cons (b : Byte.byte) (bs : list Byte.byte) :
  Fmt.hex (b :: bs)
  = String (Fmt.hex_digit (Byte.to_N b / 16))
      (String (Fmt.hex_digit (Byte.to_N b mod 16)) (Fmt.hex bs)).
Proof. reflexivity. Qed.

(** [bytes.hex()] loses nothing: different byte strings have different
    texts. *)
Lemma hex_inj (a : list Byte.byte) :
  forall b, Fmt.hex a = Fmt.hex b -> a = b.
Proof.
  induction a as [| x a IH]; intros [| y b] H;
    try reflexivity; try discriminate H.
  rewrite !hex_cons in H.
  injection H as H1 H2 H.
  f_equal; [| exact (IH b H)].
  apply hex_byte_inj; unfold Fmt.hex_byte; cbv zeta.
  rewrite H1, H2; reflexivity.
Qed.

(** Binary data is encoded without loss: when [to_jsonable] returns the
    same text for two byte strings, each handed over as [bytes] or as a
    [memoryview], the two hold the same bytes. *)
Theorem to_jsonable_binary_lossless (a b : list Byte.byte) :
  to_jsonable (PBytes a) = to_jsonable (PBytes b)
  \/ to_jsonable (PBytes a) = to_jsonable (PMemoryview b)
  \/ to_jsonable (PMemoryview a) = to_jsonable (PMemoryview b) ->
  a = b.
Proof.
  destruct (to_jsonable_binary a) as [Ha Hma].
  destruct (to_jsonable_binary b) as [Hb Hmb].
  rewrite Ha, Hma, Hb, Hmb.
  intros [H | [H | H]]; injection H as H; exact (hex_inj a b H).
Qed.

Lemma to_jsonable_binary_lossless_witness :
  [Byte.xca; Byte.xfe] = [Byte.xca; Byte.xfe].
Proof.
  apply (to_jsonable_binary_lossless [Byte.xca; Byte.xfe] [Byte.xca; Byte.xfe]).
  right; left; vm_compute; reflexivity.
Defined.

(** The handler only ever returns an [int], a [float], a [str] or a
    [list]: values the encoder writes by itself, so the handler is never
    called on its own result. *)
Theorem default_returns_native (obj r : pyobj) :
  _default obj = Ok r ->
  Orjson.is_native r = true
  /\ ((exists n, r = PInt n) \/ (exists f, r = PFloat f)
      \/ (exists s, r = PStr s) \/ (exists items, r = PList items)).
Proof.
  intros H.
  destruct obj; try discriminate H.
  - destruct d as [s c e | [|] | s [|]]; try discriminate H.
    + rewrite default_decimal in H.
      destruct (PyDecimal.is_integral (PyDecimal.Finite s c e)).
      * injection H as <-; split; [reflexivity | eauto].
      * destruct (decimal_to_float_finite s c e) as [f Hf].
        rewrite Hf in H; injection H as <-; split; [reflexivity | eauto 6].
    + injection H as <-; split; [reflexivity | eauto 6].
  - injection H as <-; split; [reflexivity | eauto 6].
  - injection H as <-; split; [reflexivity | eauto 6].
  - injection H as <-; split; [reflexivity | eauto 6].
  - injection H as <-; split; [reflexivity | eauto 8].
  - injection H as <-; split; [reflexivity | eauto 8].
Qed.

Lemma default_returns_native_witness :
  Orjson.is_native (PInt 12) = true
  /\ ((exists n, PInt 12 = PInt n) \/ (exists f, PInt 12 = PFloat f)
      \/ (exists s, PInt 12 = PStr s)
      \/ (exists items, PInt 12 = PList items)).
Proof.
  apply (default_returns_native
           (PDecimal (PyDecimal.Finite false 1200 (-2))) (PInt 12)).
  reflexivity.
Defined.

